(** * SocialX AI engine: personality scoring, pattern learning, similarity

    A shallow embedding of the three service classes of [ai-engine/src]:

    - [PersonalityAnalyzer] (personality/analyzer.py),
    - [PatternLearner]      (learning/pattern_learner.py),
    - [EmbeddingService]    (embeddings/service.py),

    followed by the properties of the written specification that concern
    them.

    Conventions of the embedding.

    - A Python [float] is the rational it denotes ([Q]), and arithmetic on
      floats is exact: [round(x, n)] rounds to the nearest multiple of
      [10^-n], ties to even.  Equality of floats is [Qeq] ([==]).  Two
      places go further.  The trait scores are computed with the
      operations of a class [FloatArith], of which exact arithmetic is one
      instance, so that what is proved of them for every instance does
      not depend on how the machine rounds.  The scores of [find_similar]
      are quotients of numpy and may be infinite or nan ([pyfloat]).
    - A Python [int] is a [Z]; list lengths and positions are [nat].
    - A call that may raise returns a [result]; [try ... except Exception]
      is [try_except].
    - The pre-trained models and library routines the code calls
      (sentence-transformers, spaCy, TextBlob, scikit-learn, numpy's sort
      and square root, [str.lower], [datetime.fromisoformat]) are the
      fields of the class [Backend]; every definition is parametric in it.
      So is the order in which [list.sort] leaves a list with a nan key.
    - A [dict] read back by key is a [gmap]; a [Counter] or [defaultdict]
      whose iteration order matters is an association list in insertion
      order. *)

From stdpp Require Import gmap strings list.
From Stdlib Require Import Ascii QArith Qround Qabs Lqa Sorting.Sorted Sorting.Permutation.

#[local] Set Warnings "-clear-no-such-hyp".

Local Open Scope Z_scope.

(* ================================================================== *)
(** * Part I. The program                                              *)
(* ================================================================== *)

(** ** Exceptions *)

Inductive Exception : Type :=
| ValueError
| TypeError
| IndexError
| RuntimeError.

Inductive result (A : Type) : Type :=
| Ok (a : A)
| Raise (e : Exception).

Arguments Ok {A} a.
Arguments Raise {A} e.

Definition bind {A B : Type} (m : result A) (k : A -> result B) : result B :=
  match m with
  | Ok a => k a
  | Raise e => Raise e
  end.

Notation "x <- m ;; k" := (bind m (fun x => k))
  (at level 100, m at next level, right associativity).

(** [try: body except Exception: handler] *)
Definition try_except {A : Type} (body : result A) (handler : Exception -> A) : A :=
  match body with
  | Ok a => a
  | Raise e => handler e
  end.

(** [[f(x) for x in l]] where [f] may raise: stops at the first raise. *)
Fixpoint map_result {A B : Type} (f : A -> result B) (l : list A) : result (list B) :=
  match l with
  | [] => Ok []
  | x :: r => y <- f x ;; ys <- map_result f r ;; Ok (y :: ys)
  end.

(** [for x in l: acc = step(acc, x)] where [step] may raise. *)
Fixpoint fold_result {A S : Type} (step : S -> A -> result S) (acc : S) (l : list A)
  : result S :=
  match l with
  | [] => Ok acc
  | x :: r => acc' <- step acc x ;; fold_result step acc' r
  end.

(** ** Numbers *)

Definition Qltb (a b : Q) : bool := negb (Qle_bool b a).

(** [min(a, b)] and [max(a, b)] of Python: the first argument wins unless
    the second is strictly smaller (larger). *)
Definition py_min (a b : Q) : Q := if Qltb b a then b else a.
Definition py_max (a b : Q) : Q := if Qltb a b then b else a.

Definition round_half_even (x : Q) : Z :=
  let f := Qfloor x in
  match (x - inject_Z f ?= 1 # 2)%Q with
  | Lt => f
  | Gt => f + 1
  | Eq => if Z.even f then f else f + 1
  end.

(** [round(x, ndigits)] *)
Definition py_round (x : Q) (ndigits : nat) : Q :=
  (inject_Z (round_half_even (x * inject_Z (10 ^ Z.of_nat ndigits)))
   / inject_Z (10 ^ Z.of_nat ndigits))%Q.

Definition Qsum (l : list Q) : Q := foldr Qplus 0%Q l.
Definition Zsum (l : list Z) : Z := foldr Z.add 0 l.

Definition len {A : Type} (l : list A) : Z := Z.of_nat (length l).

(** [np.mean(l)] *)
Definition np_mean (l : list Q) : Q := (Qsum l / inject_Z (len l))%Q.

(** [a / b] on two integers (true division). *)
Definition true_div (a b : Z) : Q := (inject_Z a / inject_Z b)%Q.

(** ** The arithmetic of the trait scores

    What an operation on floats returns is decided by the binary
    arithmetic of the machine and, for [np.mean] and [round], by the
    library that carries it out.  The scoring code of
    [PersonalityAnalyzer] takes its operations from the class
    [FloatArith]: a statement proved for every instance holds of the
    scores as the machine computes them.  [exact_arith] carries the
    operations out without rounding error; it is the arithmetic of every
    statement that names no other. *)

Class FloatArith : Type := {
  (** [x + y] *)
  float_add : Q -> Q -> Q;
  (** [x * y] *)
  float_mul : Q -> Q -> Q;
  (** [a / b] on two integers *)
  float_true_div : Z -> Z -> Q;
  (** [np.mean(l)] *)
  float_mean : list Q -> Q;
  (** [round(x, ndigits)] *)
  float_round : Q -> nat -> Q
}.

#[global] Instance exact_arith : FloatArith :=
  {| float_add := Qplus;
     float_mul := Qmult;
     float_true_div := true_div;
     float_mean := np_mean;
     float_round := py_round |}.

(** ** Quotients that are no numbers

    numpy divides without raising: a non-zero number over zero is an
    infinity, and 0/0 is nan.  A score of [find_similar] is such a
    quotient.  Every comparison with nan is false. *)

Inductive pyfloat : Type :=
| Finite (q : Q)
| Inf (negative : bool)
| NaN.

(** [x / y] on two numpy floats *)
Definition np_true_divide (x y : Q) : pyfloat :=
  if Qeq_bool y 0 then
    if Qeq_bool x 0 then NaN else Inf (Qltb x 0)
  else Finite (x / y).

(** [a < b] *)
Definition pyfloat_ltb (a b : pyfloat) : bool :=
  match a, b with
  | NaN, _ | _, NaN => false
  | Finite x, Finite y => Qltb x y
  | Finite _, Inf negative => negb negative
  | Inf negative, Finite _ => negative
  | Inf negative, Inf negative' => negative && negb negative'
  end.


(** [math.isnan(a)] *)
Definition is_nan (a : pyfloat) : bool :=
  match a with
  | NaN => true
  | _ => false
  end.

(** ** Lists: slices and the stable sort *)

(** [l[:k]] *)
Definition slice_to {A : Type} (l : list A) (k : Z) : list A :=
  if 0 <=? k then take (Z.to_nat k) l
  else take (Z.to_nat (len l + k)) l.

(** [l[-n:]] for a positive literal [n] *)
Definition slice_last {A : Type} (n : nat) (l : list A) : list A :=
  drop (length l - n)%nat l.

(** [l[i]] with Python's negative positions. *)
Definition py_index {A : Type} (l : list A) (i : Z) : result A :=
  let j := if i <? 0 then len l + i else i in
  if j <? 0 then Raise IndexError
  else match l !! Z.to_nat j with
       | Some x => Ok x
       | None => Raise IndexError
       end.

Section Sorting.
Context {A : Type} (key : A -> Q).

(** [x] enters in front of the sorted list [l] and moves right only past
    elements with a strictly larger key: equal keys keep their order. *)
Fixpoint insert_reverse (x : A) (l : list A) : list A :=
  match l with
  | [] => [x]
  | y :: r => if Qltb (key x) (key y) then y :: insert_reverse x r else x :: y :: r
  end.

(** [sorted(l, key=key, reverse=True)], also [l.sort(key=key, reverse=True)]:
    descending keys, stable. *)
Definition sorted_reverse (l : list A) : list A := foldr insert_reverse [] l.

End Sorting.

(** The same sort on keys that may be infinite, none of them nan. *)
Section SortingFloats.
Context {A : Type} (key : A -> pyfloat).

Fixpoint insert_reverse_float (x : A) (l : list A) : list A :=
  match l with
  | [] => [x]
  | y :: r =>
      if pyfloat_ltb (key x) (key y) then y :: insert_reverse_float x r else x :: y :: r
  end.

Definition sorted_reverse_float (l : list A) : list A :=
  foldr insert_reverse_float [] l.

End SortingFloats.

(** ** Counter and defaultdict(int) *)

Section Counter.
Context {K : Type} `{EqDecision K}.

(** [c[k] += 1]: a new key goes last. *)
Fixpoint counter_incr (k : K) (c : list (K * Z)) : list (K * Z) :=
  match c with
  | [] => [(k, 1)]
  | (k', n) :: r =>
      if decide (k = k') then (k', n + 1) :: r else (k', n) :: counter_incr k r
  end.

(** [c.update(l)], and [Counter(l)] from the empty counter. *)
Definition counter_update (c : list (K * Z)) (l : list K) : list (K * Z) :=
  foldl (fun acc k => counter_incr k acc) c l.

Definition Counter (l : list K) : list (K * Z) := counter_update [] l.

(** [c[k]], 0 for a missing key. *)
Fixpoint counter_get (c : list (K * Z)) (k : K) : Z :=
  match c with
  | [] => 0
  | (k', n) :: r => if decide (k = k') then n else counter_get r k
  end.

(** [c.values()] *)
Definition counter_values (c : list (K * Z)) : list Z := c.*2.

(** [c.most_common(n)] for a literal [n]: the [n] largest counts, ties in
    insertion order. *)
Definition most_common (n : nat) (c : list (K * Z)) : list (K * Z) :=
  take n (sorted_reverse (fun kv => inject_Z kv.2) c).

End Counter.

(** ** Dates and times (Python's [datetime])

    A [datetime] carries its calendar fields and, when it is aware, its
    offset from UTC in microseconds.  Ordering and subtraction follow
    Python: two naive values compare field-wise, two aware values compare
    as instants, and a naive value against an aware one raises
    [TypeError]. *)

Record datetime : Type := {
  year : Z;
  month : Z;
  day : Z;
  hour : Z;
  minute : Z;
  second : Z;
  microsecond : Z;
  utcoffset : option Z
}.

Definition is_leap (y : Z) : bool :=
  (y mod 4 =? 0) && (negb (y mod 100 =? 0) || (y mod 400 =? 0)).

Definition days_before_year (y : Z) : Z :=
  let y' := y - 1 in y' * 365 + y' / 4 - y' / 100 + y' / 400.

Definition DAYS_BEFORE_MONTH : list Z :=
  [0; 31; 59; 90; 120; 151; 181; 212; 243; 273; 304; 334].

Definition days_before_month (y m : Z) : Z :=
  default 0 (DAYS_BEFORE_MONTH !! Z.to_nat (m - 1))
  + (if (2 <? m) && is_leap y then 1 else 0).

(** [d.toordinal()]: day 1 is 0001-01-01. *)
Definition toordinal (d : datetime) : Z :=
  days_before_year (year d) + days_before_month (year d) (month d) + day d.

(** [d.weekday()]: Monday is 0. *)
Definition weekday (d : datetime) : Z := (toordinal d + 6) mod 7.

Definition DAY_NAMES : list string :=
  ["Monday"; "Tuesday"; "Wednesday"; "Thursday"; "Friday"; "Saturday"; "Sunday"]%string.

(** [d.strftime("%A")] *)
Definition strftime_A (d : datetime) : string :=
  default ""%string (DAY_NAMES !! Z.to_nat (weekday d)).

Definition MICROS_PER_DAY : Z := 86400 * 1000000.

(** Microseconds since the start of day 0, in the value's own frame. *)
Definition wall_micros (d : datetime) : Z :=
  ((toordinal d * 86400 + hour d * 3600 + minute d * 60 + second d) * 1000000)
  + microsecond d.

(** [a - b], a [timedelta] counted in microseconds. *)
Definition datetime_sub (a b : datetime) : result Z :=
  match utcoffset a, utcoffset b with
  | None, None => Ok (wall_micros a - wall_micros b)
  | Some oa, Some ob => Ok ((wall_micros a - oa) - (wall_micros b - ob))
  | _, _ => Raise TypeError
  end.

(** [a < b] *)
Definition datetime_lt (a b : datetime) : result bool :=
  delta <- datetime_sub a b ;; Ok (delta <? 0).

(** [td.days]: whole days, rounded down. *)
Definition timedelta_days (td : Z) : Z := td / MICROS_PER_DAY.

(** [max(first :: rest)] and [min(first :: rest)]: the running extremum is
    replaced only by a strictly larger (smaller) element. *)
Fixpoint datetime_max (first : datetime) (rest : list datetime) : result datetime :=
  match rest with
  | [] => Ok first
  | d :: r =>
      larger <- datetime_lt first d ;;
      datetime_max (if larger then d else first) r
  end.

Fixpoint datetime_min (first : datetime) (rest : list datetime) : result datetime :=
  match rest with
  | [] => Ok first
  | d :: r =>
      smaller <- datetime_lt d first ;;
      datetime_min (if smaller then d else first) r
  end.

(** [s.replace("Z", "+00:00")] *)
Fixpoint replace_Z (s : string) : string :=
  match s with
  | EmptyString => EmptyString
  | String c r =>
      if Ascii.eqb c "Z"%char then ("+00:00" ++ replace_Z r)%string
      else String c (replace_Z r)
  end.

(** ** The values found in a tweet or interaction record *)

Inductive pyval : Type :=
| PyNone
| PyStr (s : string)
| PyDatetime (d : datetime).

#[global] Instance datetime_eq_dec : EqDecision datetime.
Proof. solve_decision. Defined.

#[global] Instance pyval_eq_dec : EqDecision pyval.
Proof. solve_decision. Defined.

(** ** External collaborators *)

(** One spaCy token. *)
Record Token : Type := {
  lemma_ : string;
  pos_ : string;
  is_stop : bool;
  is_alpha : bool
}.

(** A fitted [KMeans]: the label of every row and the centre of every
    cluster. *)
Record KMeansFit : Type := {
  labels_ : list Z;
  cluster_centers_ : list (list Q)
}.

Class Backend : Type := {
  (** [SentenceTransformer.encode(text, convert_to_numpy=True)] *)
  model_encode : string -> result (list Q);
  (** [SentenceTransformer.encode(texts, batch_size=..., ...)] *)
  model_encode_batch : list string -> Z -> result (list (list Q));
  (** the square root behind [np.linalg.norm] *)
  np_sqrt : Q -> Q;
  (** [a.argsort()] *)
  np_argsort : list Q -> list Z;
  (** [KMeans(n_clusters=k, random_state=42, n_init=10)] fitted on a matrix *)
  KMeans_fit : Z -> list (list Q) -> result KMeansFit;
  (** [TfidfVectorizer(max_features=100, stop_words="english").fit_transform]
      together with [get_feature_names_out()] *)
  tfidf_fit_transform : list string -> result (list (list Q) * list string);
  (** [nlp(text)], the spaCy pipeline *)
  nlp : string -> result (list Token);
  (** [TextBlob(text).sentiment.polarity] *)
  TextBlob_polarity : string -> result Q;
  (** [text.lower()] *)
  str_lower : string -> string;
  (** [datetime.fromisoformat(s)] *)
  fromisoformat : string -> result datetime;
  (** [l.sort(key=lambda x: x[1], reverse=True)] on pairs some of whose
      keys are nan.  No order of the list satisfies the comparisons then,
      and the one that comes out depends on which comparisons the sort of
      the interpreter happens to make; the list keeps its elements. *)
  sort_with_nan : list (Z * pyfloat) -> list (Z * pyfloat);
  sort_with_nan_perm : forall l, sort_with_nan l ≡ₚ l
}.

(** ** personality/analyzer.py: class PersonalityAnalyzer *)

(** One entry of [TRAIT_INDICATORS]. *)
Record Indicators : Type := {
  ind_words : list string;
  ind_pos_tags : list string;
  ind_sentiment_weight : Q
}.

Definition TRAIT_INDICATORS : list (string * Indicators) :=
  [ ("openness",
     {| ind_words := ["creative"; "innovative"; "curious"; "imaginative";
                      "explore"; "new"; "idea"; "art"];
        ind_pos_tags := ["ADJ"; "ADV"];
        ind_sentiment_weight := 3 # 10 |});
    ("conscientiousness",
     {| ind_words := ["plan"; "organize"; "efficient"; "reliable";
                      "careful"; "detail"; "goal"; "schedule"];
        ind_pos_tags := ["VERB"; "NOUN"];
        ind_sentiment_weight := 2 # 10 |});
    ("extraversion",
     {| ind_words := ["social"; "outgoing"; "energetic"; "enthusiastic";
                      "party"; "people"; "talk"; "fun"];
        ind_pos_tags := ["INTJ"];
        ind_sentiment_weight := 4 # 10 |});
    ("agreeableness",
     {| ind_words := ["kind"; "helpful"; "trust"; "cooperative";
                      "compassionate"; "caring"; "empathy"; "support"];
        ind_pos_tags := ["ADJ"];
        ind_sentiment_weight := 5 # 10 |});
    ("neuroticism",
     {| ind_words := ["stress"; "worry"; "anxious"; "nervous";
                      "unstable"; "emotional"; "moody"; "fear"];
        ind_pos_tags := ["ADJ"; "NOUN"];
        ind_sentiment_weight := - (4 # 10) |}) ]%string.

(** The dictionary returned by [_extract_features]. *)
Record Features : Type := {
  feat_words : list string;
  feat_pos_tags : list string;
  feat_sentiment : Q;
  feat_length : Z;
  feat_complexity : Q
}.

(** The dictionary [all_features] of [analyze_texts]. *)
Record AllFeatures : Type := {
  word_freq : list (string * Z);
  pos_tag_freq : list (string * Z);
  sentiments : list Q;
  avg_length : list Z;
  complexity : list Q
}.

Definition str_len (s : string) : Z := Z.of_nat (String.length s).

Section PersonalityAnalyzer.
Context `{Backend} `{FloatArith}.

Definition _extract_features (text : string) : result Features :=
  doc <- nlp (str_lower text) ;;
  let words := lemma_ <$> filter (fun t => negb (is_stop t) && is_alpha t = true) doc in
  let pos_tags := pos_ <$> doc in
  sentiment <- TextBlob_polarity text ;;
  let complexity :=
    match words with
    | [] => 0%Q
    | _ => float_mean ((fun w => inject_Z (str_len w)) <$> words)
    end in
  Ok {| feat_words := words;
        feat_pos_tags := pos_tags;
        feat_sentiment := sentiment;
        feat_length := str_len text;
        feat_complexity := complexity |}.

Definition _calculate_trait_score
  (trait : string) (indicators : Indicators) (features : AllFeatures) : Q :=
  let score := (1 # 2)%Q in
  let trait_word_count :=
    Zsum (counter_get (word_freq features) <$> ind_words indicators) in
  let total_words := Zsum (counter_values (word_freq features)) in
  let score :=
    if 0 <? total_words
    then float_add score (float_mul (float_true_div trait_word_count total_words) (3 # 10))
    else score in
  let trait_pos_count :=
    Zsum (counter_get (pos_tag_freq features) <$> ind_pos_tags indicators) in
  let total_pos := Zsum (counter_values (pos_tag_freq features)) in
  let score :=
    if 0 <? total_pos
    then float_add score (float_mul (float_true_div trait_pos_count total_pos) (2 # 10))
    else score in
  let avg_sentiment := float_mean (sentiments features) in
  let sentiment_contribution := float_mul avg_sentiment (ind_sentiment_weight indicators) in
  let score := float_add score sentiment_contribution in
  let score := py_max 0 (py_min 1 score) in
  float_round score 3.

Definition _default_personality : gmap string Q :=
  {[ "openness" := 1 # 2;
     "conscientiousness" := 1 # 2;
     "extraversion" := 1 # 2;
     "agreeableness" := 1 # 2;
     "neuroticism" := 3 # 10 ]}%string%Q.

(** The body of [for text in texts] in [analyze_texts]. *)
Definition aggregate_text (all_features : AllFeatures) (text : string)
  : result AllFeatures :=
  features <- _extract_features text ;;
  Ok {| word_freq := counter_update (word_freq all_features) (feat_words features);
        pos_tag_freq := counter_update (pos_tag_freq all_features) (feat_pos_tags features);
        sentiments := sentiments all_features ++ [feat_sentiment features];
        avg_length := avg_length all_features ++ [feat_length features];
        complexity := complexity all_features ++ [feat_complexity features] |}.

Definition empty_features : AllFeatures :=
  {| word_freq := []; pos_tag_freq := []; sentiments := [];
     avg_length := []; complexity := [] |}.

Definition analyze_texts (texts : list string) : result (gmap string Q) :=
  match texts with
  | [] => Ok _default_personality
  | _ =>
      all_features <- fold_result aggregate_text empty_features texts ;;
      Ok (foldl (fun (personality : gmap string Q) '(trait, indicators) =>
                   <[trait := _calculate_trait_score trait indicators all_features]>
                     personality)
                ∅ TRAIT_INDICATORS)
  end.

End PersonalityAnalyzer.

(** [enumerate(l, start)] and [enumerate(l)] *)
Fixpoint enumerate_from {A : Type} (start : Z) (l : list A) : list (Z * A) :=
  match l with
  | [] => []
  | x :: r => (start, x) :: enumerate_from (start + 1) r
  end.

Definition enumerate {A : Type} (l : list A) : list (Z * A) := enumerate_from 0 l.

(** ** embeddings/service.py: class EmbeddingService *)

(** The inner product of two vectors of one length. *)
Definition dot (a b : list Q) : Q := Qsum (zip_with Qmult a b).

(** [np.dot(a, b)] on two vectors; shapes that differ raise. *)
Definition np_dot (a b : list Q) : result Q :=
  if decide (length a = length b) then Ok (dot a b) else Raise ValueError.

(** [clusters[label].append(idx)] *)
Definition append_at (clusters : list (list Z)) (label idx : Z)
  : result (list (list Z)) :=
  let j := if label <? 0 then len clusters + label else label in
  if (j <? 0) || (len clusters <=? j) then Raise IndexError
  else Ok (alter (fun members => members ++ [idx]) (Z.to_nat j) clusters).

Section EmbeddingService.
Context `{Backend}.

(** [np.linalg.norm(a)] *)
Definition np_linalg_norm (a : list Q) : Q :=
  np_sqrt (Qsum ((fun x => x * x)%Q <$> a)).

(** A failure of the model is logged and raised again. *)
Definition encode (text : string) : result (list Q) :=
  match model_encode text with
  | Ok embedding => Ok embedding
  | Raise e => Raise e
  end.

Definition encode_batch (texts : list string) (batch_size : Z)
  : result (list (list Q)) :=
  match texts with
  | [] => Ok []
  | _ =>
      match model_encode_batch texts batch_size with
      | Ok embeddings => Ok embeddings
      | Raise e => Raise e
      end
  end.

(** The [try] block of [similarity]. *)
Definition similarity_try (text1 text2 : string) : result Q :=
  emb1 <- encode text1 ;;
  emb2 <- encode text2 ;;
  product <- np_dot emb1 emb2 ;;
  Ok (product / (np_linalg_norm emb1 * np_linalg_norm emb2))%Q.

Definition similarity (text1 text2 : string) : Q :=
  try_except (similarity_try text1 text2) (fun _ => 0%Q).

(** The loop of [find_similar] that fills [similarities]. *)
Definition similarities_of (query_emb : list Q) (candidate_embs : list (list Q))
  : result (list (Z * pyfloat)) :=
  map_result
    (fun '(idx, cand_emb) =>
       product <- np_dot query_emb cand_emb ;;
       Ok (idx, np_true_divide
                  product (np_linalg_norm query_emb * np_linalg_norm cand_emb)%Q))
    (enumerate candidate_embs).

(** [similarities.sort(key=lambda x: x[1], reverse=True)]: the stable
    descending sort when the scores can be compared, and what the
    interpreter makes of it when one of them is nan. *)
Definition sort_similarities (similarities : list (Z * pyfloat))
  : list (Z * pyfloat) :=
  if existsb is_nan similarities.*2 then sort_with_nan similarities
  else sorted_reverse_float snd similarities.

(** The [try] block of [find_similar]. *)
Definition find_similar_try (query : string) (candidates : list string) (top_k : Z)
  : result (list (Z * pyfloat)) :=
  query_emb <- encode query ;;
  candidate_embs <- encode_batch candidates 32 ;;
  similarities <- similarities_of query_emb candidate_embs ;;
  Ok (slice_to (sort_similarities similarities) top_k).

Definition find_similar (query : string) (candidates : list string) (top_k : Z)
  : list (Z * pyfloat) :=
  match candidates with
  | [] => []
  | _ => try_except (find_similar_try query candidates top_k) (fun _ => [])
  end.

(** [[[i] for i in range(len(texts))]] *)
Definition singletons (texts : list string) : list (list Z) :=
  (fun i => [i]) <$> seqZ 0 (len texts).

(** The [try] block of [cluster_texts]. *)
Definition cluster_texts_try (texts : list string) (n_clusters : Z)
  : result (list (list Z)) :=
  embeddings <- encode_batch texts 32 ;;
  kmeans <- KMeans_fit n_clusters embeddings ;;
  fold_result (fun clusters '(idx, label) => append_at clusters label idx)
              (replicate (Z.to_nat n_clusters) [])
              (enumerate (labels_ kmeans)).

Definition cluster_texts (texts : list string) (n_clusters : Z) : list (list Z) :=
  if len texts <? n_clusters then singletons texts
  else try_except (cluster_texts_try texts n_clusters) (fun _ => singletons texts).

End EmbeddingService.

(** ** learning/pattern_learner.py: class PatternLearner *)

(** The dictionary returned by [learn_posting_patterns]; the key
    [total_analyzed] is absent from the answer to an empty request. *)
Record PostingPattern : Type := {
  best_hours : list Z;
  best_days : list string;
  avg_per_day : Q;
  total_analyzed : option Z
}.

(** One element of the list returned by [learn_content_topics]. *)
Record Topic : Type := {
  cluster_id : Z;
  keywords : list string;
  tweet_count : Z;
  prominence : Q
}.

(** The dictionary returned by [learn_engagement_patterns]. *)
Record EngagementPattern : Type := {
  eng_total_interactions : Z;
  eng_by_type : list (pyval * Z);
  eng_most_engaging_hours : list Z;
  eng_avg_per_day : Q
}.

Section PatternLearner.
Context `{Backend}.

(** [created_at = tweet.get("created_at")], parsed when it is a string;
    [None] when the following [if created_at:] skips the record. *)
Definition created_at_of (tweet : gmap string pyval) : result (option datetime) :=
  match tweet !! "created_at"%string with
  | Some (PyStr s) => d <- fromisoformat (replace_Z s) ;; Ok (Some d)
  | Some (PyDatetime d) => Ok (Some d)
  | Some PyNone | None => Ok None
  end.

Definition _calculate_date_range (tweets : list (gmap string pyval)) : result Z :=
  dates <- fold_result
             (fun dates tweet =>
                created_at <- created_at_of tweet ;;
                Ok (match created_at with
                    | Some d => dates ++ [d]
                    | None => dates
                    end))
             [] tweets ;;
  match dates with
  | first :: ((_ :: _) as rest) =>
      latest <- datetime_max first rest ;;
      earliest <- datetime_min first rest ;;
      delta <- datetime_sub latest earliest ;;
      Ok (Z.max (timedelta_days delta) 1)
  | _ => Ok 1
  end.

Definition learn_posting_patterns (tweets : list (gmap string pyval))
  : result PostingPattern :=
  match tweets with
  | [] => Ok {| best_hours := []; best_days := []; avg_per_day := 0;
                total_analyzed := None |}
  | _ =>
      hours_days <- fold_result
             (fun '(hours, days) tweet =>
                created_at <- created_at_of tweet ;;
                Ok (match created_at with
                    | Some d => (hours ++ [hour d], days ++ [strftime_A d])
                    | None => (hours, days)
                    end))
             ([], []) tweets ;;
      let hour_counts := Counter hours_days.1 in
      let best_hours := (most_common 5 hour_counts).*1 in
      let day_counts := Counter hours_days.2 in
      let best_days := (most_common 3 day_counts).*1 in
      date_range <- _calculate_date_range tweets ;;
      let avg_per_day := true_div (len tweets) (Z.max date_range 1) in
      Ok {| best_hours := best_hours;
            best_days := best_days;
            avg_per_day := py_round avg_per_day 2;
            total_analyzed := Some (len tweets) |}
  end.

(** The body of [for i in range(n_clusters)] in [learn_content_topics]. *)
Definition topic_of (tweets : list string) (kmeans : KMeansFit)
  (feature_names : list string) (i : Z) : result Topic :=
  center <- py_index (cluster_centers_ kmeans) i ;;
  let top_indices := reverse (slice_last 10 (np_argsort center)) in
  keywords <- map_result (py_index feature_names) top_indices ;;
  let cluster_size := len (filter (fun label => label = i) (labels_ kmeans)) in
  Ok {| cluster_id := i;
        keywords := take 5 keywords;
        tweet_count := cluster_size;
        prominence := py_round (true_div cluster_size (len tweets)) 3 |}.

(** The [try] block of [learn_content_topics]. *)
Definition learn_content_topics_try (tweets : list string) (n_clusters : Z)
  : result (list Topic) :=
  fitted <- tfidf_fit_transform tweets ;;
  kmeans <- KMeans_fit n_clusters fitted.1 ;;
  topics <- map_result (topic_of tweets kmeans fitted.2) (seqZ 0 n_clusters) ;;
  Ok (sorted_reverse prominence topics).

Definition learn_content_topics (tweets : list string) (n_clusters : Z) : list Topic :=
  if len tweets <? n_clusters then []
  else try_except (learn_content_topics_try tweets n_clusters) (fun _ => []).

(** The body of [for interaction in interactions]. *)
Definition count_interaction (acc : list (pyval * Z) * list (Z * Z))
  (interaction : gmap string pyval) : result (list (pyval * Z) * list (Z * Z)) :=
  let itype := default (PyStr "unknown") (interaction !! "interaction_type"%string) in
  let by_type := counter_incr itype acc.1 in
  match interaction !! "created_at"%string with
  | Some (PyStr EmptyString) => Ok (by_type, acc.2)
  | Some (PyStr s) =>
      d <- fromisoformat (replace_Z s) ;;
      Ok (by_type, counter_incr (hour d) acc.2)
  | Some (PyDatetime d) => Ok (by_type, counter_incr (hour d) acc.2)
  | Some PyNone | None => Ok (by_type, acc.2)
  end.

(** [None] stands for the empty dictionary returned on no interactions. *)
Definition learn_engagement_patterns (interactions : list (gmap string pyval))
  : result (option EngagementPattern) :=
  match interactions with
  | [] => Ok None
  | _ =>
      counts <- fold_result count_interaction ([], []) interactions ;;
      let engaging_hours := take 5 (sorted_reverse (fun kv => inject_Z kv.2) counts.2) in
      Ok (Some {| eng_total_interactions := len interactions;
                  eng_by_type := counts.1;
                  eng_most_engaging_hours := engaging_hours.*1;
                  eng_avg_per_day := true_div (len interactions) 30 |})
  end.

End PatternLearner.

(** ** The scoring rule in the words of the specification

    Section 4.2: per trait, from the baseline 0.5, add the share of
    indicator words among all lemmas times 0.3, the share of indicator
    tags among all tags times 0.2 (each step skipped when its total is
    0), and the mean sentiment times the trait's weight; clamp into
    [0, 1] and round to three decimals. *)

(** How often the [indicators] occur in [bag], summed over the indicators. *)
Definition occurrences (indicators bag : list string) : Z :=
  Zsum ((fun w => len (filter (fun x => x = w) bag)) <$> indicators).

(** [clamp(x, lo, hi)] is [max(lo, min(hi, x))]. *)
Definition clamp (x lo hi : Q) : Q := py_max lo (py_min hi x).

Section TraitScorer.
Context `{FloatArith}.

(** One step of the algorithm: the share [count / total] times [factor]
    is added to [score], and the step is skipped when [total] is 0. *)
Definition contribution (score : Q) (count total : Z) (factor : Q) : Q :=
  if total =? 0 then score
  else float_add score (float_mul (float_true_div count total) factor).

Definition spec_trait_score (indicators : Indicators) (bundles : list Features) : Q :=
  let lemmas := concat (feat_words <$> bundles) in
  let tags := concat (feat_pos_tags <$> bundles) in
  let score := (1 # 2)%Q in
  let score :=
    contribution score (occurrences (ind_words indicators) lemmas) (len lemmas) (3 # 10) in
  let score :=
    contribution score (occurrences (ind_pos_tags indicators) tags) (len tags) (2 # 10) in
  let mean_sentiment := float_mean (feat_sentiment <$> bundles) in
  let score := float_add score (float_mul mean_sentiment (ind_sentiment_weight indicators)) in
  float_round (clamp score 0 1) 3.

End TraitScorer.

(** The five trait names. *)
Definition TRAITS : gset string :=
  {[ "openness"; "conscientiousness"; "extraversion"; "agreeableness";
     "neuroticism" ]}%string.

(** ** Ranking in the words of the specification

    Section 4.4: cosine similarity is dot(a,b)/(|a| |b|); results are in
    descending score order, equal scores in the order of their candidate
    positions. *)


(** Larger key first; among equal keys, the element that was earlier. *)
Definition precedes {A : Type} (key : A -> Q) (earlier : A -> A -> Prop) (a b : A)
  : Prop :=
  (key b < key a)%Q \/ ((key a == key b)%Q /\ earlier a b).




(** ** Conditions on requests *)

(** Every non-empty timestamp string of the interactions can be parsed. *)
Definition timestamps_parse `{Backend} (interactions : list (gmap string pyval)) : Prop :=
  Forall (fun interaction =>
            forall s, interaction !! "created_at"%string = Some (PyStr s) ->
                      s <> EmptyString ->
                      exists d, fromisoformat (replace_Z s) = Ok d)
         interactions.



(** The timestamp of [tweet] is [d], given as such or as a string. *)
Definition posted_at `{Backend} (tweet : gmap string pyval) (d : datetime) : Prop :=
  created_at_of tweet = Ok (Some d).

(** ** A small concrete backend

    Used to run the definitions above on explicit inputs.  It stands for
    the libraries only in those runs; every general statement of Part II
    holds for an arbitrary [Backend]. *)

Definition digit_of (c : ascii) : option Z :=
  let n := Z.of_nat (nat_of_ascii c) in
  if (48 <=? n) && (n <=? 57) then Some (n - 48) else None.

Fixpoint number_of (acc : Z) (cs : list ascii) : option Z :=
  match cs with
  | [] => Some acc
  | c :: r =>
      match digit_of c with
      | Some d => number_of (acc * 10 + d) r
      | None => None
      end
  end.

Definition field (cs : list ascii) (start width : nat) : option Z :=
  let part := take width (drop start cs) in
  if decide (length part = width) then number_of 0 part else None.

Definition is_char (cs : list ascii) (pos : nat) (c : ascii) : bool :=
  match cs !! pos with
  | Some c' => Ascii.eqb c c'
  | None => false
  end.

(** The offset suffix [+HH:MM] or [-HH:MM], in microseconds. *)
Definition sample_offset (cs : list ascii) : option (option Z) :=
  match cs with
  | [] => Some None
  | sign :: r =>
      match field r 0 2, field r 3 2 with
      | Some h, Some m =>
          if is_char r 2 ":" && (length r =? 5)%nat && (h <? 24) && (m <? 60) then
            let magnitude := (h * 3600 + m * 60) * 1000000 in
            if Ascii.eqb sign "+" then Some (Some magnitude)
            else if Ascii.eqb sign "-" then Some (Some (- magnitude))
            else None
          else None
      | _, _ => None
      end
  end.

(** The form [YYYY-MM-DDTHH:MM:SS] with an optional offset. *)
Definition sample_fromisoformat (s : string) : result datetime :=
  let cs := String.list_ascii_of_string s in
  match field cs 0 4, field cs 5 2, field cs 8 2,
        field cs 11 2, field cs 14 2, field cs 17 2,
        sample_offset (drop 19 cs) with
  | Some y, Some mo, Some d, Some h, Some mi, Some se, Some off =>
      if is_char cs 4 "-" && is_char cs 7 "-" && is_char cs 10 "T"
         && is_char cs 13 ":" && is_char cs 16 ":"
         && (1 <=? y) && (1 <=? mo) && (mo <=? 12) && (1 <=? d) && (d <=? 31)
         && (h <? 24) && (mi <? 60) && (se <? 60)
      then Ok {| year := y; month := mo; day := d; hour := h; minute := mi;
                 second := se; microsecond := 0; utcoffset := off |}
      else Raise ValueError
  | _, _, _, _, _, _, _ => Raise ValueError
  end.

Definition lower_char (c : ascii) : ascii :=
  let n := nat_of_ascii c in
  if (65 <=? n)%nat && (n <=? 90)%nat then ascii_of_nat (n + 32) else c.

Fixpoint sample_lower (s : string) : string :=
  match s with
  | EmptyString => EmptyString
  | String c r => String (lower_char c) (sample_lower r)
  end.

(** [s.split(" ")] without the empty pieces. *)
Fixpoint split_words (current : string) (s : string) : list string :=
  match s with
  | EmptyString => if decide (current = EmptyString) then [] else [current]
  | String c r =>
      if Ascii.eqb c " "
      then (if decide (current = EmptyString) then [] else [current]) ++ split_words EmptyString r
      else split_words (current ++ String c EmptyString)%string r
  end.

Definition sample_token (w : string) : Token :=
  {| lemma_ := w;
     pos_ := if decide (w ∈ ["new"; "kind"; "creative"; "anxious"]%string) then "ADJ"
             else if decide (w ∈ ["plan"; "talk"; "explore"]%string) then "VERB"
             else "NOUN";
     is_stop := bool_decide (w ∈ ["the"; "a"; "is"; "to"]%string);
     is_alpha := negb (bool_decide (w ∈ ["!"; "?"; "42"]%string)) |}.

(** The tagger refuses the empty text, to have a failing call at hand. *)
Definition sample_nlp (text : string) : result (list Token) :=
  match text with
  | EmptyString => Raise ValueError
  | _ => Ok (sample_token <$> split_words EmptyString text)
  end.

Definition sample_polarity (text : string) : result Q :=
  let ws := split_words EmptyString text in
  Ok (if decide ("great"%string ∈ ws) then 4 # 5
      else if decide ("awful"%string ∈ ws) then - (7 # 10)
      else 0)%Q.

(** Two-dimensional embeddings; the empty text makes the model fail, and
    a text with the word "blank" gets the zero vector. *)
Definition sample_encode (text : string) : result (list Q) :=
  match text with
  | EmptyString => Raise RuntimeError
  | _ =>
      let ws := split_words EmptyString text in
      Ok (if decide ("cat"%string ∈ ws) then [3; 4]
          else if decide ("dog"%string ∈ ws) then [4; 3]
          else if decide ("blank"%string ∈ ws) then [0; 0]
          else [0; 1])%Q
  end.

(** Exact on squares of rationals, rounded down otherwise. *)
Definition sample_sqrt (q : Q) : Q :=
  (inject_Z (Z.sqrt (Qnum q * Z.pos (Qden q))) / inject_Z (Z.pos (Qden q)))%Q.

Definition sample_argsort (a : list Q) : list Z :=
  (reverse (sorted_reverse snd (enumerate a))).*1.

(** Row [i] goes to cluster [i mod k]; the first [k] rows are the centres. *)
Definition sample_kmeans (k : Z) (rows : list (list Q)) : result KMeansFit :=
  if (k <=? 0) || (len rows <? k) then Raise ValueError
  else Ok {| labels_ := (fun i => i mod k) <$> seqZ 0 (len rows);
             cluster_centers_ := take (Z.to_nat k) rows |}.

Definition sample_tfidf (texts : list string) : result (list (list Q) * list string) :=
  match texts with
  | [] => Raise ValueError
  | _ => Ok ((fun t => [inject_Z (str_len t); 1%Q]) <$> texts,
             ["length"; "bias"]%string)
  end.

(** The sort of CPython 3.11 on a list of fewer than 64 elements: the
    list is reversed, the run that starts it is found (and reversed when
    it descends), every later element is put in place by binary
    insertion, and the list is reversed again. *)
Fixpoint run_length (descending : bool) (previous : pyfloat) (rest : list (Z * pyfloat))
  : nat :=
  match rest with
  | [] => O
  | x :: r =>
      if Bool.eqb (pyfloat_ltb x.2 previous) descending
      then S (run_length descending x.2 r)
      else O
  end.

Definition count_run (l : list (Z * pyfloat)) : nat * bool :=
  match l with
  | [] => (0%nat, false)
  | [_] => (1%nat, false)
  | x :: ((y :: r) as rest) =>
      let descending := pyfloat_ltb y.2 x.2 in
      (S (S (run_length descending y.2 r)), descending)
  end.

(** Where [pivot] goes in the sorted list [run], between [lo] and [hi]. *)
Fixpoint bisect (fuel : nat) (pivot : pyfloat) (run : list (Z * pyfloat)) (lo hi : nat)
  : nat :=
  match fuel with
  | O => lo
  | S fuel =>
      if (lo <? hi)%nat then
        let p := (lo + (hi - lo) / 2)%nat in
        match run !! p with
        | Some y =>
            if pyfloat_ltb pivot y.2 then bisect fuel pivot run lo p
            else bisect fuel pivot run (S p) hi
        | None => lo
        end
      else lo
  end.

Definition binarysort (run rest : list (Z * pyfloat)) : list (Z * pyfloat) :=
  foldl (fun run x =>
           let pos := bisect (S (length run)) x.2 run 0 (length run) in
           take pos run ++ x :: drop pos run)
        run rest.

Definition sample_sort (l : list (Z * pyfloat)) : list (Z * pyfloat) :=
  let reversed := reverse l in
  let '(n, descending) := count_run reversed in
  let run := take n reversed in
  reverse (binarysort (if descending then reverse run else run) (drop n reversed)).

Lemma binarysort_perm (rest : list (Z * pyfloat)) :
  forall run, binarysort run rest ≡ₚ run ++ rest.
Proof.
  unfold binarysort. induction rest as [|x rest IH]; intros run; cbn [foldl].
  - rewrite app_nil_r. reflexivity.
  - rewrite IH.
    rewrite <- (Permutation_middle (take _ run) (drop _ run) x), take_drop.
    cbn [app]. apply Permutation_middle.
Qed.

Lemma sample_sort_perm (l : list (Z * pyfloat)) : sample_sort l ≡ₚ l.
Proof.
  unfold sample_sort. destruct (count_run (reverse l)) as [n descending].
  rewrite reverse_Permutation, binarysort_perm.
  assert (Hrun : (if descending then reverse (take n (reverse l))
                  else take n (reverse l)) ≡ₚ take n (reverse l)).
  { destruct descending; [apply reverse_Permutation | reflexivity]. }
  rewrite Hrun, take_drop. apply reverse_Permutation.
Qed.

Definition sample_backend : Backend :=
  {| model_encode := sample_encode;
     model_encode_batch := fun texts _ => map_result sample_encode texts;
     np_sqrt := sample_sqrt;
     np_argsort := sample_argsort;
     KMeans_fit := sample_kmeans;
     tfidf_fit_transform := sample_tfidf;
     nlp := sample_nlp;
     TextBlob_polarity := sample_polarity;
     str_lower := sample_lower;
     fromisoformat := sample_fromisoformat;
     sort_with_nan := sample_sort;
     sort_with_nan_perm := sample_sort_perm |}.

Definition sample_texts : list string :=
  ["the new plan is great"; "creative people talk to kind people"]%string.

(** A tweet or interaction carrying only a timestamp string. *)
Definition stamped (s : string) : gmap string pyval :=
  {[ "created_at"%string := PyStr s ]}.

(** Ten tweets of Monday 2024-01-01 between 14:00 and 14:59 UTC. *)
Definition monday_tweets : list (gmap string pyval) :=
  stamped <$> [ "2024-01-01T14:00:00Z"; "2024-01-01T14:05:10Z";
                "2024-01-01T14:59:59Z"; "2024-01-01T14:12:00Z";
                "2024-01-01T14:30:00Z"; "2024-01-01T14:30:00Z";
                "2024-01-01T14:01:00Z"; "2024-01-01T14:45:30Z";
                "2024-01-01T14:20:00Z"; "2024-01-01T14:07:07Z" ]%string.

(** Their timestamps, as [sample_fromisoformat] reads them. *)
Definition at_14 (mi se : Z) : datetime :=
  {| year := 2024; month := 1; day := 1; hour := 14; minute := mi; second := se;
     microsecond := 0; utcoffset := Some 0 |}.

Definition monday_stamps : list datetime :=
  [ at_14 0 0; at_14 5 10; at_14 59 59; at_14 12 0; at_14 30 0;
    at_14 30 0; at_14 1 0; at_14 45 30; at_14 20 0; at_14 7 7 ].



(** Sixty interactions spread over the days and hours of one year. *)
Definition sixty_interactions : list (gmap string pyval) :=
  concat (replicate 20 (stamped <$> [ "2023-03-05T09:00:00Z";
                                      "2024-01-01T14:05:10";
                                      "2023-11-30T23:59:59+02:00" ]%string)).


(** ** The remaining operations of the three classes and of the service *)

(** [sep.join(parts)] *)
Fixpoint str_join (sep : string) (parts : list string) : string :=
  match parts with
  | [] => EmptyString
  | [p] => p
  | p :: rest => (p ++ sep ++ str_join sep rest)%string
  end.

(** personality/analyzer.py, [get_personality_description]; [None] is the
    [KeyError] of a trait missing from [scores]. *)
Definition get_personality_description (scores : gmap string Q) : option string :=
  openness ← scores !! "openness"%string;
  let descriptions :=
    if Qltb (6 # 10) openness
    then ["creative and open to new experiences"%string] else [] in
  conscientiousness ← scores !! "conscientiousness"%string;
  let descriptions :=
    if Qltb (6 # 10) conscientiousness
    then descriptions ++ ["organized and detail-oriented"%string] else descriptions in
  extraversion ← scores !! "extraversion"%string;
  let descriptions :=
    if Qltb (6 # 10) extraversion
    then descriptions ++ ["outgoing and energetic"%string] else descriptions in
  agreeableness ← scores !! "agreeableness"%string;
  let descriptions :=
    if Qltb (6 # 10) agreeableness
    then descriptions ++ ["friendly and cooperative"%string] else descriptions in
  neuroticism ← scores !! "neuroticism"%string;
  let descriptions :=
    if Qltb neuroticism (4 # 10)
    then descriptions ++ ["emotionally stable"%string] else descriptions in
  Some (match descriptions with
        | [] => "balanced and adaptable"%string
        | _ => str_join ", " descriptions
        end).

(** The dictionary returned by [learn_vocabulary]; [avg_word_length] is
    [None] when numpy's mean of no word at all is not a number. *)
Record Vocabulary : Type := {
  unique_words : Z;
  total_words : Z;
  common_words : list string;
  common_phrases : list string;
  avg_word_length : option Q
}.

Definition stop_words : list string :=
  ["the"; "a"; "an"; "and"; "or"; "but"; "in"; "on"; "at"; "to"; "for"]%string.

(** [f"{a} {b}"] for each pair of neighbours of [ws]. *)
Definition bigrams_of (ws : list string) : list string :=
  zip_with (fun a b => (a ++ " " ++ b)%string) ws (tail ws).

Section Vocabulary.
Context `{Backend}.
(** [s.split()], splitting at white space *)
Variable str_split : string -> list string.

(** learning/pattern_learner.py, [learn_vocabulary]; [None] stands for
    the empty dictionary returned on no tweets. *)
Definition learn_vocabulary (tweets : list string) : option Vocabulary :=
  match tweets with
  | [] => None
  | _ =>
      let all_text := str_lower (str_join " " tweets) in
      let words := str_split all_text in
      let word_freq := Counter words in
      let filtered_freq :=
        filter (fun kv : string * Z => (kv.1 ∉ stop_words) /\ 2 < str_len kv.1)
               word_freq in
      let common_words :=
        (take 20 (sorted_reverse (fun kv : string * Z => inject_Z kv.2)
                                 filtered_freq)).*1 in
      let bigrams :=
        foldl (fun bigrams tweet => bigrams ++ bigrams_of (str_split (str_lower tweet)))
              [] tweets in
      let common_phrases := (most_common 10 (Counter bigrams)).*1 in
      Some {| unique_words := Z.of_nat (size (list_to_set words : gset string));
              total_words := len words;
              common_words := common_words;
              common_phrases := common_phrases;
              avg_word_length :=
                match words with
                | [] => None
                | _ => Some (py_round
                               (np_mean ((fun w => inject_Z (str_len w)) <$> words)) 2)
                end |}
  end.

End Vocabulary.

Section Endpoints.
Context `{Backend}.

(** main.py, the route [/find-similar]: [None] is the answer 500 the
    route gives when pairing an index with its candidate raises. *)
Definition find_similar_endpoint (query : string) (candidates : list string)
  (top_k : Z) : option (list (Z * string * pyfloat)) :=
  let results := find_similar query candidates top_k in
  match map_result
          (fun entry : Z * pyfloat =>
             (text <- py_index candidates entry.1 ;;
              Ok (entry.1, text, entry.2)))
          results with
  | Ok formatted_results => Some formatted_results
  | Raise _ => None
  end.

End Endpoints.

(** ** Conditions on timestamps *)

Definition aware (d : datetime) : bool :=
  match utcoffset d with
  | Some _ => true
  | None => false
  end.


(** The moment a timestamp denotes, in microseconds: its wall-clock
    reading, moved back by its offset from UTC when it has one. *)
Definition instant (d : datetime) : Z := wall_micros d - default 0 (utcoffset d).


(* ================================================================== *)
(** * Part II. Properties                                              *)
(* ================================================================== *)

(** ** Arithmetic of scores *)

Lemma Qltb_true (a b : Q) : Qltb a b = true <-> (a < b)%Q.
Proof.
  unfold Qltb. rewrite negb_true_iff. split.
  - intros Hle. apply Qnot_le_lt. intros Hba.
    apply Qle_bool_iff in Hba. congruence.
  - intros Hlt. destruct (Qle_bool b a) eqn:E; [|reflexivity].
    apply Qle_bool_iff in E. exfalso. apply (Qlt_not_le _ _ Hlt E).
Qed.

Lemma Qltb_false (a b : Q) : Qltb a b = false <-> (b <= a)%Q.
Proof.
  unfold Qltb. rewrite negb_false_iff. apply Qle_bool_iff.
Qed.

Lemma Qltb_compat (a a' b b' : Q) : (a == a')%Q -> (b == b')%Q -> Qltb a b = Qltb a' b'.
Proof.
  intros Ha Hb.
  destruct (Qltb a b) eqn:E1, (Qltb a' b') eqn:E2; try reflexivity.
  - apply Qltb_true in E1. apply Qltb_false in E2.
    rewrite Ha, Hb in E1. exfalso. apply (Qlt_not_le _ _ E1 E2).
  - apply Qltb_false in E1. apply Qltb_true in E2.
    rewrite Ha, Hb in E1. exfalso. apply (Qlt_not_le _ _ E2 E1).
Qed.

Lemma clamp_unit (s : Q) : (0 <= py_max 0 (py_min 1 s) <= 1)%Q.
Proof.
  unfold py_max, py_min.
  destruct (Qltb s 1) eqn:E1.
  - apply Qltb_true in E1.
    destruct (Qltb 0 s) eqn:E2.
    + apply Qltb_true in E2. lra.
    + lra.
  - destruct (Qltb 0 1) eqn:E2.
    + lra.
    + lra.
Qed.


Lemma round_half_even_floor (x : Q) :
  (round_half_even x = Qfloor x /\ (x - inject_Z (Qfloor x) <= 1 # 2)%Q) \/
  (round_half_even x = Qfloor x + 1 /\ (1 # 2 <= x - inject_Z (Qfloor x))%Q).
Proof.
  unfold round_half_even.
  destruct (x - inject_Z (Qfloor x) ?= 1 # 2)%Q eqn:E.
  - apply Qeq_alt in E.
    destruct (Z.even (Qfloor x)); [left | right]; (split; [reflexivity | lra]).
  - apply Qlt_alt in E. left. split; [reflexivity | lra].
  - apply Qgt_alt in E. right. split; [reflexivity | lra].
Qed.

Lemma round_half_even_near (x : Q) :
  (Qabs (inject_Z (round_half_even x) - x) <= 1 # 2)%Q.
Proof.
  apply Qabs_Qle_condition.
  destruct (round_half_even_floor x) as [[-> Hhalf] | [-> Hhalf]].
  - pose proof (Qfloor_le x) as Hlo. lra.
  - pose proof (Qlt_floor x) as Hhi.
    rewrite inject_Z_plus in *. change (inject_Z 1) with 1%Q in *. lra.
Qed.

Lemma round_half_even_range (x : Q) (n : Z) :
  (0 <= x)%Q -> (x <= inject_Z n)%Q -> 0 <= round_half_even x <= n.
Proof.
  intros H0 Hn.
  assert (Hf0 : 0 <= Qfloor x).
  { change 0 with (Qfloor (inject_Z 0)) at 1. rewrite <- (Qfloor_Z 0).
    apply Qfloor_resp_le. exact H0. }
  assert (Hfn : Qfloor x <= n).
  { rewrite <- (Qfloor_Z n). apply Qfloor_resp_le. exact Hn. }
  destruct (round_half_even_floor x) as [[-> _] | [-> Hhalf]]; [lia|].
  split; [lia|].
  destruct (Z.eq_dec (Qfloor x) n) as [Heq | Hne]; [|lia].
  rewrite Heq in Hhalf. lra.
Qed.

Lemma pow10_pos (n : nat) : 0 < 10 ^ Z.of_nat n.
Proof. apply Z.pow_pos_nonneg; lia. Qed.

Lemma inject_Z_pos (z : Z) : 0 < z -> (0 < inject_Z z)%Q.
Proof. intros Hz. change 0%Q with (inject_Z 0). rewrite <- Zlt_Qlt. exact Hz. Qed.


Lemma py_round_unit (x : Q) (n : nat) :
  (0 <= x <= 1)%Q -> (0 <= py_round x n <= 1)%Q.
Proof.
  intros [H0 H1]. unfold py_round.
  set (scale := 10 ^ Z.of_nat n).
  assert (Hs : (0 < inject_Z scale)%Q) by (apply inject_Z_pos, pow10_pos).
  destruct (round_half_even_range (x * inject_Z scale) scale) as [Hlo Hhi].
  - nra.
  - nra.
  - rewrite Zle_Qle in Hlo, Hhi. change (inject_Z 0) with 0%Q in Hlo.
    split.
    + apply Qle_shift_div_l; [exact Hs | lra].
    + apply Qle_shift_div_r; [exact Hs | lra].
Qed.

Lemma py_round_near (x : Q) (n : nat) :
  (Qabs (py_round x n - x) <= 1 / (2 * inject_Z (10 ^ Z.of_nat n)))%Q.
Proof.
  unfold py_round.
  set (scale := inject_Z (10 ^ Z.of_nat n)).
  assert (Hs : (0 < scale)%Q) by (apply inject_Z_pos, pow10_pos).
  pose proof (round_half_even_near (x * scale)) as Hnear.
  set (r := inject_Z (round_half_even (x * scale))) in *.
  apply Qabs_Qle_condition in Hnear. destruct Hnear as [Hlo Hhi].
  assert (Hrx : (r / scale - x == (r - x * scale) / scale)%Q) by (field; lra).
  assert (Hb : (1 / (2 * scale) == (1 # 2) / scale)%Q) by (field; lra).
  rewrite Hrx, Hb.
  apply Qabs_Qle_condition. split.
  - apply Qle_shift_div_l; [exact Hs|].
    assert (E : (- ((1 # 2) / scale) * scale == - (1 # 2))%Q) by (field; lra).
    rewrite E. exact Hlo.
  - apply Qle_shift_div_r; [exact Hs|].
    assert (E : ((1 # 2) / scale * scale == 1 # 2)%Q) by (field; lra).
    rewrite E. exact Hhi.
Qed.


(** ** Counters count *)

Section CounterFacts.
Context {K : Type} `{EqDecision K}.

Lemma counter_get_incr (c : list (K * Z)) (k k' : K) :
  counter_get (counter_incr k c) k' =
  counter_get c k' + (if decide (k' = k) then 1 else 0).
Proof.
  induction c as [|[k0 n] c IH]; simpl.
  - destruct (decide (k' = k)); lia.
  - destruct (decide (k = k0)) as [->|Hne]; simpl.
    + destruct (decide (k' = k0)); lia.
    + destruct (decide (k' = k0)) as [->|Hne'].
      * destruct (decide (k0 = k)); [congruence | lia].
      * exact IH.
Qed.

Lemma counter_values_incr (c : list (K * Z)) (k : K) :
  Zsum (counter_values (counter_incr k c)) = Zsum (counter_values c) + 1.
Proof.
  unfold counter_values.
  induction c as [|[k0 n] c IH]; csimpl; [lia|].
  destruct (decide (k = k0)); csimpl; lia.
Qed.

Lemma counter_get_update (l : list K) (c : list (K * Z)) (k : K) :
  counter_get (counter_update c l) k =
  counter_get c k + len (filter (fun x => x = k) l).
Proof.
  unfold counter_update, len. revert c.
  induction l as [|x l IH]; intros c; simpl; [lia|].
  rewrite IH, counter_get_incr, filter_cons.
  destruct (decide (k = x)) as [->|Hne].
  - rewrite decide_True by reflexivity. simpl. lia.
  - rewrite decide_False by congruence. lia.
Qed.

Lemma counter_values_update (l : list K) (c : list (K * Z)) :
  Zsum (counter_values (counter_update c l)) = Zsum (counter_values c) + len l.
Proof.
  unfold counter_update, len. revert c.
  induction l as [|x l IH]; intros c; simpl; [lia|].
  rewrite IH, counter_values_incr. lia.
Qed.

Lemma counter_update_app (l1 l2 : list K) (c : list (K * Z)) :
  counter_update (counter_update c l1) l2 = counter_update c (l1 ++ l2).
Proof. unfold counter_update. rewrite foldl_app. reflexivity. Qed.

End CounterFacts.

(** ** PersonalityAnalyzer *)

Lemma Zsum_fmap_ext {A : Type} (f g : A -> Z) (l : list A) :
  (forall x, f x = g x) -> Zsum (f <$> l) = Zsum (g <$> l).
Proof.
  intros Hfg. induction l as [|x l IH]; csimpl; [reflexivity|].
  rewrite Hfg, IH. reflexivity.
Qed.

Section PersonalityAnalyzerFacts.
Context `{Backend}.

Lemma calculate_trait_score_unit (trait : string) (indicators : Indicators)
  (features : AllFeatures) :
  (0 <= _calculate_trait_score trait indicators features <= 1)%Q.
Proof.
  unfold _calculate_trait_score. apply py_round_unit, clamp_unit.
Qed.

Lemma personality_fold (features : AllFeatures) (traits : list (string * Indicators)) :
  forall personality : gmap string Q,
    let final :=
      foldl (fun (personality : gmap string Q) '(trait, indicators) =>
               <[trait := _calculate_trait_score trait indicators features]>
                 personality)
            personality traits in
    dom final = dom personality ∪ list_to_set traits.*1
    /\ forall trait score,
         final !! trait = Some score ->
         personality !! trait = Some score
         \/ exists indicators,
              (trait, indicators) ∈ traits
              /\ score = _calculate_trait_score trait indicators features.
Proof.
  induction traits as [|[t ind] traits IH]; intros personality; cbn [foldl].
  - split; [set_solver|]. intros trait score Hl. left. exact Hl.
  - destruct (IH (<[t := _calculate_trait_score t ind features]> personality))
      as [Hdom Hval].
    split.
    + rewrite Hdom, dom_insert_L. set_solver.
    + intros trait score Hl.
      destruct (Hval trait score Hl) as [Hins | (ind' & Hin & Hscore)].
      * apply lookup_insert_Some in Hins as [[<- <-] | [_ Hold]].
        -- right. exists ind. split; [apply list_elem_of_here | reflexivity].
        -- left. exact Hold.
      * right. exists ind'. split; [apply list_elem_of_further, Hin | exact Hscore].
Qed.

Lemma default_personality_invariant :
  dom _default_personality = TRAITS
  /\ forall trait score,
       _default_personality !! trait = Some score -> (0 <= score <= 1)%Q.
Proof.
  split; [reflexivity|].
  intros trait score Hl. unfold _default_personality in Hl.
  repeat (apply lookup_insert_Some in Hl as [[_ <-] | [_ Hl]]; [lra|]).
  apply lookup_singleton_Some in Hl as [_ <-]. lra.
Qed.

(** C6: [score] applied to the empty text collection returns exactly the
    fixed default set, openness, conscientiousness, extraversion and
    agreeableness at 0.5 and neuroticism at 0.3, without running the
    scoring algorithm: the answer is the same for every backend, none of
    which is consulted. *)
Theorem analyze_texts_empty :
  analyze_texts [] =
  Ok ({[ "openness" := 1 # 2;
         "conscientiousness" := 1 # 2;
         "extraversion" := 1 # 2;
         "agreeableness" := 1 # 2;
         "neuroticism" := 3 # 10 ]}%string%Q : gmap string Q).
Proof. reflexivity. Qed.

(** C2: for every list of texts, empty or not, the trait score set that
    [analyze_texts] returns has exactly the five keys openness,
    conscientiousness, extraversion, agreeableness and neuroticism, and
    every score lies in [0, 1]. *)
Theorem analyze_texts_invariant (texts : list string) (personality : gmap string Q) :
  analyze_texts texts = Ok personality ->
  dom personality = TRAITS
  /\ forall trait score,
       personality !! trait = Some score -> (0 <= score <= 1)%Q.
Proof.
  intros Hrun. destruct texts as [|text texts].
  - injection Hrun as <-. apply default_personality_invariant.
  - unfold analyze_texts in Hrun.
    destruct (fold_result aggregate_text empty_features (text :: texts))
      as [features|e] eqn:Hfold; cbv beta iota delta [bind] in Hrun;
      [|discriminate].
    injection Hrun as <-.
    pose proof (personality_fold features TRAIT_INDICATORS ∅) as Hscores.
    cbv zeta in Hscores. destruct Hscores as [Hdom Hval].
    split.
    + etransitivity; [exact Hdom | reflexivity].
    + intros trait score Hl.
      destruct (Hval trait score Hl) as [Hempty | (ind & _ & ->)].
      * rewrite lookup_empty in Hempty. discriminate.
      * apply calculate_trait_score_unit.
Qed.

End PersonalityAnalyzerFacts.

(** ** The scoring rule, in every arithmetic *)

Section TraitScoreFormula.
Context `{Backend} `{FloatArith}.

(** The loop over the texts gathers the lemmas, tags and sentiments of
    the per-text feature bundles, in order. *)
Lemma aggregate_all (texts : list string) :
  forall (bundles : list Features) (acc : AllFeatures),
    map_result _extract_features texts = Ok bundles ->
    exists all_features,
      fold_result aggregate_text acc texts = Ok all_features
      /\ word_freq all_features =
         counter_update (word_freq acc) (concat (feat_words <$> bundles))
      /\ pos_tag_freq all_features =
         counter_update (pos_tag_freq acc) (concat (feat_pos_tags <$> bundles))
      /\ sentiments all_features = sentiments acc ++ (feat_sentiment <$> bundles).
Proof.
  induction texts as [|text texts IH]; intros bundles acc Hmap; simpl in Hmap.
  - injection Hmap as <-. exists acc. simpl.
    rewrite app_nil_r. repeat split; reflexivity.
  - destruct (_extract_features text) as [features|e] eqn:Hf; simpl in Hmap;
      [|discriminate].
    destruct (map_result _extract_features texts) as [rest|e] eqn:Hrest;
      simpl in Hmap; [|discriminate].
    injection Hmap as <-.
    simpl. unfold aggregate_text at 1. rewrite Hf. simpl.
    edestruct (IH rest) as (af & Hfold & Hw & Hp & Hs); [reflexivity|].
    exists af. split; [exact Hfold|].
    rewrite Hw, Hp, Hs. simpl.
    rewrite !counter_update_app, <- app_assoc. repeat split; reflexivity.
Qed.

(** On the features gathered from the bundles, the code reads the
    quantities that the rule of the specification is stated in. *)
Lemma score_refines (trait : string) (indicators : Indicators)
  (features : AllFeatures) (bundles : list Features) :
  word_freq features = Counter (concat (feat_words <$> bundles)) ->
  pos_tag_freq features = Counter (concat (feat_pos_tags <$> bundles)) ->
  sentiments features = feat_sentiment <$> bundles ->
  _calculate_trait_score trait indicators features
  = spec_trait_score indicators bundles.
Proof.
  intros Hw Hp Hs.
  unfold _calculate_trait_score, spec_trait_score, clamp, contribution.
  rewrite Hw, Hp, Hs. unfold Counter.
  rewrite !counter_values_update.
  rewrite (Zsum_fmap_ext
             (counter_get (counter_update [] (concat (feat_words <$> bundles))))
             (fun w => len (filter (fun x => x = w) (concat (feat_words <$> bundles)))));
    [|intros w; rewrite counter_get_update; reflexivity].
  rewrite (Zsum_fmap_ext
             (counter_get (counter_update [] (concat (feat_pos_tags <$> bundles))))
             (fun w => len (filter (fun x => x = w) (concat (feat_pos_tags <$> bundles)))));
    [|intros w; rewrite counter_get_update; reflexivity].
  fold (occurrences (ind_words indicators) (concat (feat_words <$> bundles))).
  fold (occurrences (ind_pos_tags indicators) (concat (feat_pos_tags <$> bundles))).
  simpl Zsum. rewrite !Z.add_0_l.
  set (lemmas := concat (feat_words <$> bundles)).
  set (tags := concat (feat_pos_tags <$> bundles)).
  fold (len lemmas). fold (len tags).
  assert (Hl : 0 <= len lemmas) by (unfold len; lia).
  assert (Ht : 0 <= len tags) by (unfold len; lia).
  destruct (Z.ltb_spec 0 (len lemmas)); destruct (Z.eqb_spec (len lemmas) 0); try lia;
    destruct (Z.ltb_spec 0 (len tags)); destruct (Z.eqb_spec (len tags) 0); try lia;
    reflexivity.
Qed.

(** C3: for every non-empty list of texts whose features can be
    extracted, and each of the five traits, the returned score equals
    round(clamp(0.5 + word_ratio*0.3 + pos_ratio*0.2
                + mean_sentiment*trait_weight, 0.0, 1.0), 3),
    the two ratio steps being skipped when their totals are 0
    ([spec_trait_score]), in every arithmetic of floats: the code and
    the rule apply the same operations, in the same order, to the same
    counts and sentiments. *)
Theorem trait_score_formula (texts : list string) (bundles : list Features) :
  texts <> [] ->
  map_result _extract_features texts = Ok bundles ->
  exists personality,
    analyze_texts texts = Ok personality
    /\ forall trait indicators,
         (trait, indicators) ∈ TRAIT_INDICATORS ->
         exists score,
           personality !! trait = Some score
           /\ score = spec_trait_score indicators bundles.
Proof.
  intros Hne Hmap.
  destruct (aggregate_all texts bundles empty_features Hmap)
    as (features & Hfold & Hw & Hp & Hs).
  destruct texts as [|text texts]; [congruence|].
  unfold analyze_texts. rewrite Hfold. cbv beta iota. unfold bind.
  eexists. split; [reflexivity|].
  intros trait indicators Hin.
  exists (_calculate_trait_score trait indicators features). split.
  - unfold TRAIT_INDICATORS in *. cbn [foldl].
    repeat (apply elem_of_cons in Hin as [Hin | Hin];
            [injection Hin as -> ->; by simplify_map_eq|]).
    by apply elem_of_nil in Hin.
  - apply score_refines; assumption.
Qed.

End TraitScoreFormula.

Lemma analyze_texts_invariant_witness :
  exists personality,
    @analyze_texts sample_backend exact_arith sample_texts = Ok personality
    /\ dom personality = TRAITS
    /\ forall trait score,
         personality !! trait = Some score -> (0 <= score <= 1)%Q.
Proof.
  eexists. split.
  - vm_compute. reflexivity.
  - apply (@analyze_texts_invariant sample_backend sample_texts).
    vm_compute. reflexivity.
Defined.

Lemma trait_score_formula_witness :
  exists bundles personality,
    sample_texts <> []
    /\ map_result (@_extract_features sample_backend exact_arith) sample_texts = Ok bundles
    /\ @analyze_texts sample_backend exact_arith sample_texts = Ok personality
    /\ forall trait indicators,
         (trait, indicators) ∈ TRAIT_INDICATORS ->
         exists score,
           personality !! trait = Some score
           /\ score = spec_trait_score indicators bundles.
Proof.
  assert (Hne : sample_texts <> []) by discriminate.
  destruct (map_result (@_extract_features sample_backend exact_arith) sample_texts)
    as [bundles|e] eqn:Hmap.
  - destruct (@trait_score_formula sample_backend exact_arith sample_texts bundles Hne Hmap)
      as (personality & Hrun & Hscores).
    exists bundles, personality. repeat split; assumption.
  - vm_compute in Hmap. discriminate.
Defined.

(** ** The stable descending sort *)

Section SortingFacts.
Context {A : Type} (key : A -> Q) (earlier : A -> A -> Prop).

Local Abbreviation precedes := (precedes key earlier).

Lemma insert_reverse_perm (x : A) (l : list A) :
  Permutation (insert_reverse key x l) (x :: l).
Proof.
  induction l as [|y l IH]; simpl; [reflexivity|].
  destruct (Qltb (key x) (key y)); [|reflexivity].
  rewrite IH. apply perm_swap.
Qed.

Lemma sorted_reverse_perm (l : list A) : Permutation (sorted_reverse key l) l.
Proof.
  induction l as [|x l IH]; simpl; [reflexivity|].
  rewrite insert_reverse_perm, IH. reflexivity.
Qed.

Lemma precedes_key (a b : A) : precedes a b -> (key b <= key a)%Q.
Proof. intros [Hlt | [Heq _]]; [apply Qlt_le_weak, Hlt | rewrite Heq; apply Qle_refl]. Qed.

Lemma insert_reverse_sorted (x : A) (l : list A) :
  StronglySorted precedes l ->
  Forall (earlier x) l ->
  StronglySorted precedes (insert_reverse key x l).
Proof.
  induction l as [|y l IH]; intros Hsorted Hearlier; simpl.
  - repeat constructor.
  - apply StronglySorted_inv in Hsorted as [Hl Hy].
    apply Forall_cons in Hearlier as [Hxy Hxl].
    destruct (Qltb (key x) (key y)) eqn:E.
    + apply Qltb_true in E. constructor; [apply IH; assumption|].
      rewrite insert_reverse_perm. constructor; [left; exact E | exact Hy].
    + apply Qltb_false in E. constructor; [constructor; assumption|].
      assert (Hall : Forall (fun z => (key z <= key x)%Q /\ earlier x z) (y :: l)).
      { constructor; [split; assumption|].
        rewrite Forall_forall in Hy, Hxl |- *. intros z Hz. split.
        - apply Qle_trans with (key y); [apply precedes_key, Hy, Hz | exact E].
        - apply Hxl, Hz. }
      eapply Forall_impl; [exact Hall|].
      intros z [Hle Hxz]. unfold precedes.
      destruct (Qlt_le_dec (key z) (key x)) as [Hlt | Hge]; [left; exact Hlt|].
      right. split; [apply Qle_antisym; assumption | exact Hxz].
Qed.

Lemma sorted_reverse_sorted (l : list A) :
  StronglySorted earlier l -> StronglySorted precedes (sorted_reverse key l).
Proof.
  induction l as [|x l IH]; intros Hsorted; simpl; [constructor|].
  apply StronglySorted_inv in Hsorted as [Hl Hx].
  apply insert_reverse_sorted; [apply IH, Hl|].
  rewrite sorted_reverse_perm. exact Hx.
Qed.

End SortingFacts.

(** The sort of scores keeps the elements, and on scores that are numbers
    it is the sort above. *)
Lemma sorted_reverse_float_perm {A : Type} (key : A -> pyfloat) (l : list A) :
  sorted_reverse_float key l ≡ₚ l.
Proof.
  induction l as [|x l IH]; cbn [sorted_reverse_float foldr]; [reflexivity|].
  fold (sorted_reverse_float key l).
  transitivity (x :: sorted_reverse_float key l); [|constructor; exact IH].
  generalize (sorted_reverse_float key l). clear IH. intros sorted.
  induction sorted as [|y sorted IH]; cbn [insert_reverse_float]; [reflexivity|].
  destruct (pyfloat_ltb (key x) (key y)); [|reflexivity].
  rewrite IH. apply perm_swap.
Qed.






Lemma map_result_ok {A B : Type} (f : A -> result B) (g : A -> B) (l : list A) :
  Forall (fun x => f x = Ok (g x)) l -> map_result f l = Ok (g <$> l).
Proof.
  induction 1 as [|x l Hx Hl IH]; simpl; [reflexivity|].
  rewrite Hx, IH. reflexivity.
Qed.

Lemma enumerate_from_snd {A : Type} (P : A -> Prop) (l : list A) :
  forall start, Forall P l -> Forall (fun a : Z * A => P a.2) (enumerate_from start l).
Proof.
  induction l as [|x l IH]; intros start Hl; simpl; [constructor|].
  apply Forall_cons in Hl as [Hx Hl]. constructor; [exact Hx | apply IH, Hl].
Qed.


(** ** EmbeddingService *)

Section EmbeddingServiceFacts.
Context `{Backend}.

Lemma np_dot_ok (a b : list Q) : length b = length a -> np_dot a b = Ok (dot a b).
Proof.
  intros Hlen. unfold np_dot. rewrite decide_True by congruence. reflexivity.
Qed.

Lemma similarities_of_ok (query_emb : list Q) (candidate_embs : list (list Q)) :
  Forall (fun emb => length emb = length query_emb) candidate_embs ->
  similarities_of query_emb candidate_embs =
  Ok ((fun entry : Z * list Q =>
         (entry.1,
          np_true_divide (dot query_emb entry.2)
                         (np_linalg_norm query_emb * np_linalg_norm entry.2)%Q))
        <$> enumerate candidate_embs).
Proof.
  intros Hdim. unfold similarities_of. apply map_result_ok.
  eapply Forall_impl; [apply (enumerate_from_snd _ _ 0 Hdim)|].
  intros [idx emb] Hlen. simpl in Hlen |- *.
  rewrite (np_dot_ok _ _ Hlen). reflexivity.
Qed.



Lemma sort_similarities_perm (similarities : list (Z * pyfloat)) :
  sort_similarities similarities ≡ₚ similarities.
Proof.
  unfold sort_similarities. destruct (existsb is_nan similarities.*2).
  - apply sort_with_nan_perm.
  - apply sorted_reverse_float_perm.
Qed.




End EmbeddingServiceFacts.




(** ** PatternLearner *)

Section PatternLearnerFacts.
Context `{Backend}.

Lemma singletons_lookup (texts : list string) (i : nat) :
  (i < length texts)%nat -> singletons texts !! i = Some [Z.of_nat i].
Proof.
  intros Hi. unfold singletons, len.
  rewrite list_lookup_fmap, lookup_seqZ_lt by lia. reflexivity.
Qed.

Lemma singletons_length (texts : list string) :
  length (singletons texts) = length texts.
Proof.
  unfold singletons, len. rewrite length_fmap, length_seqZ. lia.
Qed.

(** C1, as the code has it: with fewer texts than the requested cluster
    count, [learn_content_topics] returns no topic at all; it is
    [cluster_texts] of the embedding service that returns exactly
    len(texts) singleton clusters, the i-th holding the index i. *)
Theorem too_few_texts (texts : list string) (n_clusters : Z) :
  len texts < n_clusters ->
  learn_content_topics texts n_clusters = []
  /\ length (cluster_texts texts n_clusters) = length texts
  /\ forall i, (i < length texts)%nat ->
               cluster_texts texts n_clusters !! i = Some [Z.of_nat i].
Proof.
  intros Hfew. unfold learn_content_topics, cluster_texts.
  destruct (Z.ltb_spec (len texts) n_clusters) as [_ | Hge]; [|lia].
  split; [reflexivity|].
  split; [apply singletons_length | apply singletons_lookup].
Qed.

(** C10: [find_similar] and [learn_content_topics] never pass on an
    exception of the embedding, TF-IDF or clustering backend: whenever
    the model, the vectorizer, the clustering or any later step of the
    guarded block raises, the answer is the empty list, the same answer
    as for no candidates. *)
Theorem backend_failure_gives_empty_list :
  (forall query candidates top_k e,
      model_encode query = Raise e
      \/ model_encode_batch candidates 32 = Raise e
      \/ find_similar_try query candidates top_k = Raise e ->
      find_similar query candidates top_k = [])
  /\ (forall tweets n_clusters e,
        tfidf_fit_transform tweets = Raise e
        \/ (exists fitted, tfidf_fit_transform tweets = Ok fitted
                           /\ KMeans_fit n_clusters fitted.1 = Raise e)
        \/ learn_content_topics_try tweets n_clusters = Raise e ->
        learn_content_topics tweets n_clusters = [])
  /\ (forall query top_k, find_similar query [] top_k = []).
Proof.
  split; [|split].
  - intros query [|c cs] top_k e Hfail; [reflexivity|].
    unfold find_similar.
    assert (Htry : exists e', find_similar_try query (c :: cs) top_k = Raise e').
    { unfold find_similar_try, encode, encode_batch.
      destruct Hfail as [Hq | [Hb | Ht]].
      - rewrite Hq. eauto.
      - rewrite Hb. destruct (model_encode query); simpl; eauto.
      - unfold find_similar_try, encode, encode_batch in Ht. eauto. }
    destruct Htry as [e' ->]. reflexivity.
  - intros tweets n_clusters e Hfail. unfold learn_content_topics.
    destruct (len tweets <? n_clusters); [reflexivity|].
    assert (Htry : exists e', learn_content_topics_try tweets n_clusters = Raise e').
    { unfold learn_content_topics_try.
      destruct Hfail as [Hv | [(fitted & Hv & Hk) | Ht]].
      - rewrite Hv. eauto.
      - rewrite Hv. simpl. rewrite Hk. eauto.
      - unfold learn_content_topics_try in Ht. eauto. }
    destruct Htry as [e' ->]. reflexivity.
  - reflexivity.
Qed.

End PatternLearnerFacts.

Lemma too_few_texts_witness :
  len ["first"; "second"; "third"]%string < 5
  /\ @learn_content_topics sample_backend ["first"; "second"; "third"]%string 5 = []
  /\ @cluster_texts sample_backend ["first"; "second"; "third"]%string 5
     = [[0]; [1]; [2]].
Proof.
  assert (Hfew : len ["first"; "second"; "third"]%string < 5) by (vm_compute; reflexivity).
  destruct (@too_few_texts sample_backend _ _ Hfew) as (Htopics & _ & _).
  split; [exact Hfew|]. split; [exact Htopics | reflexivity].
Defined.

(** C1 as stated fails: one text and five requested clusters give no
    cluster, not one singleton cluster. *)
Lemma content_topics_returns_nothing :
  len ["only one tweet"]%string < 5
  /\ length (@learn_content_topics sample_backend ["only one tweet"]%string 5)
     <> length ["only one tweet"]%string.
Proof.
  split; [vm_compute; reflexivity|].
  vm_compute. discriminate.
Qed.

Lemma backend_failure_gives_empty_list_witness :
  @find_similar sample_backend "" ["dog"; "cat"]%string 5 = []
  /\ @find_similar sample_backend "cat" ["dog"; ""]%string 5 = []
  /\ @learn_content_topics sample_backend [] 0 = [].
Proof.
  destruct (@backend_failure_gives_empty_list sample_backend)
    as (Hfind & Htopics & _).
  split; [|split].
  - apply (Hfind _ _ _ RuntimeError). left. reflexivity.
  - apply (Hfind _ _ _ RuntimeError). right. left. reflexivity.
  - apply (Htopics _ _ ValueError). left. reflexivity.
Defined.

Section EngagementFacts.
Context `{Backend}.

Lemma count_interactions_ok (interactions : list (gmap string pyval)) :
  timestamps_parse interactions ->
  forall acc, exists counts,
    fold_result count_interaction acc interactions = Ok counts.
Proof.
  induction 1 as [|interaction interactions Hparse _ IH]; intros acc; simpl.
  - eauto.
  - assert (Hstep : exists acc', count_interaction acc interaction = Ok acc').
    { unfold count_interaction.
      destruct (interaction !! "created_at"%string) as [[|s|d]|] eqn:Hc; eauto.
      destruct s as [|c s]; eauto.
      destruct (Hparse _ eq_refl) as [d ->]; [discriminate|].
      simpl. eauto. }
    destruct Hstep as [acc' ->]. simpl. apply IH.
Qed.

(** C7: for every non-empty interaction list, the reported [avg_per_day]
    is the number of interactions divided by 30, whatever their
    timestamps; a report is produced as soon as the timestamps can be
    parsed; 60 interactions give 2.0. *)
Theorem engagement_avg_per_day (interactions : list (gmap string pyval)) :
  interactions <> [] ->
  (forall answer,
      learn_engagement_patterns interactions = Ok answer ->
      exists pattern,
        answer = Some pattern
        /\ (eng_avg_per_day pattern == inject_Z (len interactions) / 30)%Q
        /\ (length interactions = 60%nat -> (eng_avg_per_day pattern == 2)%Q))
  /\ (timestamps_parse interactions ->
      exists pattern, learn_engagement_patterns interactions = Ok (Some pattern)).
Proof.
  intros Hne. destruct interactions as [|i0 rest]; [congruence|].
  unfold learn_engagement_patterns. split.
  - intros answer Hrun.
    destruct (fold_result count_interaction ([], []) (i0 :: rest)) as [counts|e];
      cbv beta iota delta [bind] in Hrun; [|discriminate].
    injection Hrun as <-. eexists. split; [reflexivity|].
    cbn [eng_avg_per_day]. unfold true_div. split; [reflexivity|].
    intros Hlen. unfold len. rewrite Hlen. reflexivity.
  - intros Hparse.
    destruct (count_interactions_ok _ Hparse ([], [])) as [counts ->].
    cbv beta iota delta [bind]. eauto.
Qed.

End EngagementFacts.

Lemma engagement_avg_per_day_witness :
  sixty_interactions <> []
  /\ @timestamps_parse sample_backend sixty_interactions
  /\ exists pattern,
       @learn_engagement_patterns sample_backend sixty_interactions = Ok (Some pattern)
       /\ (eng_avg_per_day pattern == 2)%Q.
Proof.
  assert (Hne : sixty_interactions <> []) by discriminate.
  destruct (@engagement_avg_per_day sample_backend sixty_interactions Hne)
    as [Hvalue Hreport].
  assert (Hparse : @timestamps_parse sample_backend sixty_interactions).
  { unfold timestamps_parse, sixty_interactions.
    apply Forall_concat, Forall_replicate.
    repeat constructor; intros s Hs _; unfold stamped in Hs;
      rewrite lookup_singleton_eq in Hs; injection Hs as <-;
      eexists; vm_compute; reflexivity. }
  split; [exact Hne|]. split; [exact Hparse|].
  destruct (Hreport Hparse) as [pattern Hrun].
  destruct (Hvalue _ Hrun) as (pattern' & Hsome & _ & Hsixty).
  injection Hsome as <-.
  exists pattern. split; [exact Hrun | apply Hsixty; reflexivity].
Defined.

(** ** Posting patterns *)

Lemma fold_result_ok {A S B : Type} (step : S -> A -> result S) (g : S -> B -> S)
  (l : list A) (bs : list B) :
  Forall2 (fun x b => forall acc, step acc x = Ok (g acc b)) l bs ->
  forall acc, fold_result step acc l = Ok (foldl g acc bs).
Proof.
  induction 1 as [|x b l bs Hx _ IH]; intros acc; simpl; [reflexivity|].
  rewrite Hx. simpl. apply IH.
Qed.

Lemma foldl_snoc {A B : Type} (f : B -> A) (bs : list B) (acc : list A) :
  foldl (fun acc b => acc ++ [f b]) acc bs = acc ++ (f <$> bs).
Proof.
  revert acc. induction bs as [|b bs IH]; intros acc; csimpl.
  - rewrite app_nil_r. reflexivity.
  - rewrite IH, <- app_assoc. reflexivity.
Qed.

Lemma foldl_snoc_pair {A1 A2 B : Type} (f1 : B -> A1) (f2 : B -> A2) (bs : list B)
  (acc : list A1 * list A2) :
  foldl (fun (acc : list A1 * list A2) b => (acc.1 ++ [f1 b], acc.2 ++ [f2 b])) acc bs
  = (acc.1 ++ (f1 <$> bs), acc.2 ++ (f2 <$> bs)).
Proof.
  revert acc. induction bs as [|b bs IH]; intros [a1 a2]; csimpl.
  - rewrite !app_nil_r. reflexivity.
  - rewrite IH. simpl. rewrite <- !app_assoc. reflexivity.
Qed.










Section PostingFacts.
Context `{Backend}.




End PostingFacts.



(** ** Content topics *)

Lemma Qsum_perm (l l' : list Q) : Permutation l l' -> (Qsum l == Qsum l')%Q.
Proof.
  induction 1 as [|x l l' _ IH|x y l|l l' l'' _ IH1 _ IH2]; simpl.
  - reflexivity.
  - rewrite IH. reflexivity.
  - ring.
  - rewrite IH1. exact IH2.
Qed.

Lemma Zsum_perm (l l' : list Z) : Permutation l l' -> Zsum l = Zsum l'.
Proof.
  induction 1 as [|x l l' _ IH|x y l|l l' l'' _ IH1 _ IH2]; simpl; lia.
Qed.

Lemma Zsum_fmap_add {A : Type} (f g : A -> Z) (l : list A) :
  Zsum ((fun x => f x + g x) <$> l) = Zsum (f <$> l) + Zsum (g <$> l).
Proof. induction l as [|x l IH]; csimpl; lia. Qed.

Lemma Zsum_indicator (label : Z) (l : list Z) :
  NoDup l ->
  Zsum ((fun i => if decide (label = i) then 1 else 0) <$> l)
  = if decide (label ∈ l) then 1 else 0.
Proof.
  induction 1 as [|i l Hi _ IH].
  - rewrite decide_False by apply not_elem_of_nil. reflexivity.
  - rewrite fmap_cons. cbn [Zsum foldr]. fold (Zsum
      ((fun i => if decide (label = i) then 1 else 0) <$> l)).
    rewrite IH. destruct (decide (label = i)) as [->|Hne].
    + rewrite decide_False by exact Hi.
      rewrite decide_True by apply list_elem_of_here. reflexivity.
    + destruct (decide (label ∈ l)) as [Hin|Hout].
      * rewrite decide_True by (apply list_elem_of_further, Hin). reflexivity.
      * rewrite decide_False; [reflexivity|].
        intros Hin. apply elem_of_cons in Hin as [?|?]; congruence.
Qed.

(** The clusters partition the samples: the member counts of the clusters
    [0 .. k-1] add up to the number of labels. *)
Lemma member_counts_total (labels : list Z) (k : Z) :
  Forall (fun label => 0 <= label < k) labels ->
  Zsum ((fun i => len (filter (fun label => label = i) labels)) <$> seqZ 0 k)
  = len labels.
Proof.
  unfold len. induction 1 as [|label labels Hlabel _ IH].
  - simpl. induction (seqZ 0 k) as [|i l IHl]; csimpl; lia.
  - rewrite (Zsum_fmap_ext _
               (fun i => (if decide (label = i) then 1 else 0)
                         + Z.of_nat (length (filter (fun label => label = i) labels)))).
    + rewrite Zsum_fmap_add, IH, Zsum_indicator by apply NoDup_seqZ.
      rewrite decide_True by (apply elem_of_seqZ; lia).
      simpl length. lia.
    + intros i. rewrite filter_cons.
      destruct (decide (label = i)); simpl length; lia.
Qed.

Lemma Qsum_true_div (f : Z -> Z) (n : Z) (l : list Z) :
  (Qsum ((fun i => true_div (f i) n) <$> l) == true_div (Zsum (f <$> l)) n)%Q.
Proof.
  unfold true_div. induction l as [|i l IH].
  - change (0 == inject_Z 0 / inject_Z n)%Q. unfold Qdiv. ring.
  - rewrite !fmap_cons. cbn [Qsum Zsum foldr].
    fold (Qsum ((fun i => inject_Z (f i) / inject_Z n)%Q <$> l)).
    fold (Zsum (f <$> l)).
    rewrite IH, inject_Z_plus. unfold Qdiv. ring.
Qed.

Lemma Qsum_near (f g : Z -> Q) (eps : Q) (l : list Z) :
  (forall i, Qabs (f i - g i) <= eps)%Q ->
  (Qabs (Qsum (f <$> l) - Qsum (g <$> l)) <= inject_Z (len l) * eps)%Q.
Proof.
  intros Hnear. unfold len. induction l as [|i l IH].
  - change (Qabs (0 - 0) <= 0 * eps)%Q. apply Qabs_Qle_condition. lra.
  - rewrite !fmap_cons. cbn [Qsum foldr length].
    fold (Qsum (f <$> l)). fold (Qsum (g <$> l)).
    assert (Hsplit : (f i + Qsum (f <$> l) - (g i + Qsum (g <$> l))
                      == (f i - g i) + (Qsum (f <$> l) - Qsum (g <$> l)))%Q) by ring.
    rewrite Hsplit. eapply Qle_trans; [apply Qabs_triangle|].
    rewrite Nat2Z.inj_succ, <- Z.add_1_r, inject_Z_plus.
    specialize (Hnear i). change (inject_Z 1) with 1%Q. lra.
Qed.

Section ContentTopicsFacts.
Context `{Backend}.

(** What the loop over the clusters records for each cluster. *)
Lemma topics_of_clusters (tweets : list string) (kmeans : KMeansFit)
  (feature_names : list string) (ids : list Z) :
  forall topics,
    map_result (topic_of tweets kmeans feature_names) ids = Ok topics ->
    tweet_count <$> topics
    = (fun i => len (filter (fun label => label = i) (labels_ kmeans))) <$> ids
    /\ prominence <$> topics
       = (fun i => py_round
                     (true_div (len (filter (fun label => label = i) (labels_ kmeans)))
                               (len tweets)) 3) <$> ids.
Proof.
  induction ids as [|i ids IH]; intros topics Hrun; simpl in Hrun.
  - injection Hrun as <-. split; reflexivity.
  - destruct (topic_of tweets kmeans feature_names i) as [topic|e] eqn:Htopic;
      cbv beta iota delta [bind] in Hrun; [|discriminate].
    destruct (map_result (topic_of tweets kmeans feature_names) ids)
      as [rest|e] eqn:Hrest; [|discriminate].
    injection Hrun as <-.
    destruct (IH rest eq_refl) as [Hcounts Hproms].
    unfold topic_of in Htopic.
    destruct (py_index (cluster_centers_ kmeans) i) as [center|e];
      cbv beta iota delta [bind] in Htopic; [|discriminate].
    destruct (map_result (py_index feature_names)
                (reverse (slice_last 10 (np_argsort center)))) as [kw|e];
      [|discriminate].
    injection Htopic as <-.
    rewrite !fmap_cons, Hcounts, Hproms. split; reflexivity.
Qed.

(** C4, as the code has it: when the clustering runs and completes, the
    member counts of the returned clusters add up to the number of
    samples, and the prominence values, each rounded to three decimals,
    add up to 1.0 within 0.0005 per cluster and the tolerance 1e-6 for
    the floating-point operations. *)
Theorem prominence_sum (tweets : list string) (n_clusters : Z)
  (fitted : list (list Q) * list string) (kmeans : KMeansFit) :
  n_clusters <= len tweets ->
  tfidf_fit_transform tweets = Ok fitted ->
  KMeans_fit n_clusters fitted.1 = Ok kmeans ->
  length (labels_ kmeans) = length tweets ->
  Forall (fun label => 0 <= label < n_clusters) (labels_ kmeans) ->
  learn_content_topics tweets n_clusters <> [] ->
  Zsum (tweet_count <$> learn_content_topics tweets n_clusters) = len tweets
  /\ (Qabs (Qsum (prominence <$> learn_content_topics tweets n_clusters) - 1)
      <= inject_Z n_clusters * (1 # 2000) + (1 # 1000000))%Q.
Proof.
  intros Hk Hfit Hkm Hlen Hlabels Hne.
  unfold learn_content_topics in *.
  destruct (Z.ltb_spec (len tweets) n_clusters) as [Hlt | _]; [lia|].
  unfold learn_content_topics_try in *.
  rewrite Hfit in *. cbv beta iota delta [bind] in *. rewrite Hkm in *.
  destruct (map_result (topic_of tweets kmeans fitted.2) (seqZ 0 n_clusters))
    as [topics|e] eqn:Hrun; cbn [try_except] in *; [|congruence].
  destruct (topics_of_clusters _ _ _ _ _ Hrun) as [Hcounts Hproms].
  pose proof (sorted_reverse_perm prominence topics) as Hperm.
  assert (Hpos : 0 < n_clusters).
  { destruct (Z.ltb_spec 0 n_clusters) as [Hp | Hn]; [exact Hp|].
    exfalso. apply Hne. rewrite seqZ_nil in Hrun by exact Hn.
    simpl in Hrun. injection Hrun as <-. reflexivity. }
  assert (Htotal : Zsum (tweet_count <$> topics) = len tweets).
  { rewrite Hcounts, member_counts_total by exact Hlabels.
    unfold len. rewrite Hlen. reflexivity. }
  split.
  - rewrite (Zsum_perm _ (tweet_count <$> topics)); [exact Htotal|].
    apply fmap_Permutation, Hperm.
  - rewrite (Qsum_perm _ (prominence <$> topics))
      by (apply fmap_Permutation, Hperm).
    rewrite Hproms.
    set (count := fun i => len (filter (fun label => label = i) (labels_ kmeans))).
    assert (Hexact : (Qsum ((fun i => true_div (count i) (len tweets))
                              <$> seqZ 0 n_clusters) == 1)%Q).
    { rewrite Qsum_true_div.
      fold count in Hcounts. rewrite <- Hcounts, Htotal.
      unfold true_div. field.
      assert (Hn : (0 < inject_Z (len tweets))%Q) by (apply inject_Z_pos; lia).
      lra. }
    rewrite <- Hexact.
    eapply Qle_trans.
    + apply (Qsum_near (fun i => py_round (true_div (count i) (len tweets)) 3)
               (fun i => true_div (count i) (len tweets)) (1 # 2000)).
      intros i. eapply Qle_trans; [apply py_round_near|].
      apply Qle_lteq. right. reflexivity.
    + unfold len. rewrite length_seqZ, Z2Nat.id by lia.
      rewrite <- (Qplus_0_r (inject_Z n_clusters * (1 # 2000))) at 1.
      apply Qplus_le_r. discriminate.
Qed.

End ContentTopicsFacts.

Lemma prominence_sum_witness :
  3 <= len ["a"; "bb"; "ccc"]%string
  /\ sample_tfidf ["a"; "bb"; "ccc"]%string
     = Ok ([[1; 1]; [2; 1]; [3; 1]]%Q, ["length"; "bias"]%string)
  /\ sample_kmeans 3 [[1; 1]; [2; 1]; [3; 1]]%Q
     = Ok {| labels_ := [0; 1; 2];
             cluster_centers_ := [[1; 1]; [2; 1]; [3; 1]]%Q |}
  /\ Zsum (tweet_count
             <$> @learn_content_topics sample_backend ["a"; "bb"; "ccc"]%string 3) = 3
  /\ (Qabs (Qsum (prominence
                    <$> @learn_content_topics sample_backend
                          ["a"; "bb"; "ccc"]%string 3) - 1)
      <= inject_Z 3 * (1 # 2000) + (1 # 1000000))%Q.
Proof.
  assert (Hfit : sample_tfidf ["a"; "bb"; "ccc"]%string
                 = Ok ([[1; 1]; [2; 1]; [3; 1]]%Q, ["length"; "bias"]%string))
    by reflexivity.
  assert (Hkm : sample_kmeans 3 [[1; 1]; [2; 1]; [3; 1]]%Q
                = Ok {| labels_ := [0; 1; 2];
                        cluster_centers_ := [[1; 1]; [2; 1]; [3; 1]]%Q |})
    by reflexivity.
  split; [vm_compute; discriminate|].
  split; [exact Hfit|]. split; [exact Hkm|].
  apply (@prominence_sum sample_backend ["a"; "bb"; "ccc"]%string 3
           ([[1; 1]; [2; 1]; [3; 1]]%Q, ["length"; "bias"]%string)
           {| labels_ := [0; 1; 2];
              cluster_centers_ := [[1; 1]; [2; 1]; [3; 1]]%Q |}).
  - vm_compute. discriminate.
  - exact Hfit.
  - exact Hkm.
  - reflexivity.
  - repeat constructor; vm_compute; try discriminate; reflexivity.
  - vm_compute. discriminate.
Defined.

(** C4 as stated fails: three samples in three clusters of one member
    each have prominence 0.333 each, and 0.999 is further than 1e-6
    from 1.0. *)
Lemma rounded_prominences_miss_one :
  3 <= len ["a"; "bb"; "ccc"]%string
  /\ prominence <$> @learn_content_topics sample_backend ["a"; "bb"; "ccc"]%string 3
     = [333 # 1000; 333 # 1000; 333 # 1000]%Q
  /\ ~ (Qabs (Qsum (prominence
                      <$> @learn_content_topics sample_backend
                            ["a"; "bb"; "ccc"]%string 3) - 1)
        <= 1 # 1000000)%Q.
Proof.
  split; [vm_compute; discriminate|].
  split; [vm_compute; reflexivity|].
  vm_compute. intros Hle. apply Hle. reflexivity.
Qed.

(** ** More on the embedding service *)


Lemma dot_self (a : list Q) : zip_with Qmult a a = (fun x => x * x)%Q <$> a.
Proof. induction a as [|x a IH]; csimpl; [reflexivity|]. rewrite IH. reflexivity. Qed.

Lemma enumerate_from_fst {A : Type} (l : list A) :
  forall start, (enumerate_from start l).*1 = seqZ start (len l).
Proof.
  unfold len. induction l as [|x l IH]; intros start; [reflexivity|].
  rewrite seqZ_cons by (simpl length; lia).
  cbn [enumerate_from fmap list_fmap fst]. f_equal.
  change (list_fmap _ _ fst (enumerate_from (start + 1) l))
    with ((enumerate_from (start + 1) l).*1).
  rewrite IH. f_equal; simpl length; lia.
Qed.

Lemma map_result_fst {A B : Type} (f : Z * A -> result (Z * B)) (l : list (Z * A)) :
  (forall x y, f x = Ok y -> y.1 = x.1) ->
  forall r, map_result f l = Ok r -> r.*1 = l.*1.
Proof.
  intros Hf. induction l as [|x l IH]; intros r Hrun; simpl in Hrun.
  - injection Hrun as <-. reflexivity.
  - destruct (f x) as [y|e] eqn:Hx; cbv beta iota delta [bind] in Hrun; [|discriminate].
    destruct (map_result f l) as [ys|e]; [|discriminate].
    injection Hrun as <-. rewrite !fmap_cons, (Hf x y Hx), (IH ys eq_refl). reflexivity.
Qed.

Lemma map_result_Forall2 {A B : Type} (f : A -> result B) (P : A -> B -> Prop)
  (l : list A) :
  Forall (fun x => exists y, f x = Ok y /\ P x y) l ->
  exists r, map_result f l = Ok r /\ Forall2 P l r.
Proof.
  induction 1 as [|x l (y & Hy & HP) _ (r & Hr & HF)]; simpl.
  - exists []. split; [reflexivity | constructor].
  - rewrite Hy, Hr. exists (y :: r). split; [reflexivity | constructor; assumption].
Qed.

Lemma slice_to_sublist {A : Type} (l : list A) (k : Z) : slice_to l k `sublist_of` l.
Proof. unfold slice_to. destruct (0 <=? k); apply sublist_take. Qed.

Lemma slice_to_len {A : Type} (l : list A) (k : Z) :
  len (slice_to l k) = if 0 <=? k then Z.min k (len l) else Z.max 0 (len l + k).
Proof.
  unfold slice_to, len. destruct (Z.leb_spec 0 k); rewrite length_take; lia.
Qed.

Lemma py_index_in_range {A : Type} (l : list A) (i : Z) :
  0 <= i < len l -> exists x, py_index l i = Ok x /\ l !! Z.to_nat i = Some x.
Proof.
  intros [Hlo Hhi]. unfold py_index, len in *.
  destruct (Z.ltb_spec i 0); [lia|]. destruct (Z.ltb_spec i 0); [lia|].
  destruct (l !! Z.to_nat i) as [x|] eqn:Hx; [eauto|].
  apply lookup_ge_None in Hx. lia.
Qed.

Lemma concat_alter_snoc {A : Type} (x : A) (clusters : list (list A)) :
  forall j, (j < length clusters)%nat ->
            concat (alter (fun members => members ++ [x]) j clusters)
            ≡ₚ x :: concat clusters.
Proof.
  induction clusters as [|m clusters IH]; intros j Hj; simpl in Hj; [lia|].
  destruct j as [|j].
  - simpl. rewrite <- app_assoc. simpl. symmetry. apply Permutation_middle.
  - change (m ++ concat (alter (fun members => members ++ [x]) j clusters)
            ≡ₚ x :: m ++ concat clusters).
    rewrite IH by lia. symmetry. apply Permutation_middle.
Qed.

Lemma append_at_ok (clusters clusters' : list (list Z)) (label idx : Z) :
  append_at clusters label idx = Ok clusters' ->
  length clusters' = length clusters /\ concat clusters' ≡ₚ idx :: concat clusters.
Proof.
  unfold append_at, len. intros Hrun.
  set (j := if label <? 0 then Z.of_nat (length clusters) + label else label) in *.
  destruct (Z.ltb_spec j 0); [discriminate|].
  destruct (Z.leb_spec (Z.of_nat (length clusters)) j); [discriminate|].
  simpl in Hrun. injection Hrun as <-. split.
  - apply length_alter.
  - apply concat_alter_snoc. lia.
Qed.

Lemma append_at_out_of_range (clusters : list (list Z)) (label idx : Z) :
  ~ (- len clusters <= label < len clusters) ->
  append_at clusters label idx = Raise IndexError.
Proof.
  unfold append_at, len. intros Hout.
  destruct ((((if label <? 0 then Z.of_nat (length clusters) + label else label) <? 0)
             || (Z.of_nat (length clusters)
                 <=? (if label <? 0 then Z.of_nat (length clusters) + label else label))))
    eqn:E; [reflexivity|].
  exfalso. apply Hout. apply orb_false_iff in E as [E1 E2].
  apply Z.ltb_ge in E1. apply Z.leb_gt in E2.
  destruct (Z.ltb_spec label 0); lia.
Qed.

Lemma fold_append_at (pairs : list (Z * Z)) :
  forall clusters clusters',
    fold_result (fun clusters '(idx, label) => append_at clusters label idx)
                clusters pairs = Ok clusters' ->
    length clusters' = length clusters
    /\ concat clusters' ≡ₚ concat clusters ++ pairs.*1.
Proof.
  induction pairs as [|[idx label] pairs IH]; intros clusters clusters' Hrun;
    simpl in Hrun.
  - injection Hrun as <-. rewrite app_nil_r. split; reflexivity.
  - destruct (append_at clusters label idx) as [next|e] eqn:Hstep;
      cbv beta iota delta [bind] in Hrun; [|discriminate].
    destruct (append_at_ok _ _ _ _ Hstep) as [Hlen Hperm].
    destruct (IH _ _ Hrun) as [Hlen' Hperm'].
    split; [congruence|].
    rewrite Hperm', Hperm, fmap_cons. simpl. apply Permutation_middle.
Qed.

Lemma fold_append_at_raises (pairs : list (Z * Z)) :
  forall clusters,
    Exists (fun pair : Z * Z => ~ (- len clusters <= pair.2 < len clusters)) pairs ->
    exists e,
      fold_result (fun clusters '(idx, label) => append_at clusters label idx)
                  clusters pairs = Raise e.
Proof.
  induction pairs as [|[idx label] pairs IH]; intros clusters Hbad.
  - inversion Hbad.
  - simpl. destruct (append_at clusters label idx) as [next|e] eqn:Hstep;
      [|simpl; eauto].
    simpl. apply IH.
    destruct (append_at_ok _ _ _ _ Hstep) as [Hlen _].
    apply Exists_cons in Hbad as [Hhere | Hlater].
    + rewrite (append_at_out_of_range _ _ _ Hhere) in Hstep. discriminate.
    + unfold len in *. rewrite Hlen. exact Hlater.
Qed.

Lemma concat_singletons (l : list Z) : concat ((fun i => [i]) <$> l) = l.
Proof. induction l as [|i l IH]; csimpl; [reflexivity|]. rewrite IH. reflexivity. Qed.

Lemma concat_replicate_nil {A : Type} (n : nat) : concat (replicate n (@nil A)) = [].
Proof. induction n as [|n IH]; simpl; [reflexivity | exact IH]. Qed.

Section EmbeddingServiceMore.
Context `{Backend}.

Lemma similarities_of_fst (query_emb : list Q) (candidate_embs : list (list Q))
  (similarities : list (Z * pyfloat)) :
  similarities_of query_emb candidate_embs = Ok similarities ->
  similarities.*1 = seqZ 0 (len candidate_embs).
Proof.
  intros Hrun. unfold similarities_of in Hrun.
  apply map_result_fst in Hrun.
  - rewrite Hrun. apply enumerate_from_fst.
  - intros [idx emb] y Hxy.
    destruct (np_dot query_emb emb); cbv beta iota delta [bind] in Hxy;
      [|discriminate].
    injection Hxy as <-. reflexivity.
Qed.

(** Either [find_similar] answers the empty list, or every step of its
    guarded block went through. *)
Lemma find_similar_cases (query : string) (candidates : list string) (top_k : Z) :
  find_similar query candidates top_k = []
  \/ exists query_emb candidate_embs similarities,
       encode query = Ok query_emb
       /\ encode_batch candidates 32 = Ok candidate_embs
       /\ similarities_of query_emb candidate_embs = Ok similarities
       /\ find_similar query candidates top_k
          = slice_to (sort_similarities similarities) top_k.
Proof.
  destruct candidates as [|c cs]; [left; reflexivity|].
  unfold find_similar, find_similar_try.
  destruct (encode query) as [qe|e] eqn:Hq; [|left; reflexivity].
  destruct (encode_batch (c :: cs) 32) as [embs|e] eqn:Hc; [|left; reflexivity].
  cbv beta iota delta [bind].
  destruct (similarities_of qe embs) as [sims|e] eqn:Hs; [|left; reflexivity].
  right. exists qe, embs, sims. repeat split; solve [reflexivity | assumption].
Qed.

Lemma find_similar_indices (query : string) (candidates : list string) (top_k : Z)
  (candidate_embs : list (list Q)) :
  encode_batch candidates 32 = Ok candidate_embs ->
  NoDup (find_similar query candidates top_k).*1
  /\ Forall (fun idx => 0 <= idx < len candidate_embs)
            (find_similar query candidates top_k).*1.
Proof.
  intros Hc.
  destruct (find_similar_cases query candidates top_k)
    as [-> | (qe & embs & sims & Hq & Hc' & Hs & ->)].
  - split; constructor.
  - rewrite Hc in Hc'. injection Hc' as <-.
    pose proof (similarities_of_fst _ _ _ Hs) as Hfst.
    assert (Hperm : (sort_similarities sims).*1 ≡ₚ seqZ 0 (len candidate_embs)).
    { rewrite <- Hfst. apply fmap_Permutation, sort_similarities_perm. }
    assert (Hsub : (slice_to (sort_similarities sims) top_k).*1
                   `sublist_of` (sort_similarities sims).*1).
    { apply fmap_sublist, slice_to_sublist. }
    assert (Hnd : NoDup (sort_similarities sims).*1).
    { rewrite Hperm. apply NoDup_seqZ. }
    split.
    + eapply sublist_NoDup; [exact Hnd | exact Hsub].
    + rewrite Forall_forall. intros idx Hin.
      pose proof (elem_of_sublist _ _ _ Hin Hsub) as Hin'.
      rewrite Hperm in Hin'. apply elem_of_seqZ in Hin'. lia.
Qed.


(** X2: the similarity of a text with itself is 1, provided its embedding
    is not the zero vector and the norm is exact on it. *)
Theorem similarity_self (text : string) (emb : list Q) :
  encode text = Ok emb ->
  (np_linalg_norm emb * np_linalg_norm emb == dot emb emb)%Q ->
  ~ (dot emb emb == 0)%Q ->
  (similarity text text == 1)%Q.
Proof.
  intros Henc Hnorm Hnz.
  unfold similarity, similarity_try. rewrite Henc.
  cbv beta iota delta [bind]. rewrite np_dot_ok by reflexivity.
  cbv beta iota delta [try_except]. rewrite Hnorm. field. exact Hnz.
Qed.

(** X3: whatever happens inside [find_similar], no candidate index is
    returned twice, every returned index is the position of one of the
    embeddings the model gave back, and a count [top_k >= 0] is never
    exceeded. *)
Theorem find_similar_indices_valid (query : string) (candidates : list string)
  (top_k : Z) :
  NoDup (find_similar query candidates top_k).*1
  /\ (0 <= top_k -> len (find_similar query candidates top_k) <= top_k)
  /\ (forall candidate_embs,
         encode_batch candidates 32 = Ok candidate_embs ->
         Forall (fun idx => 0 <= idx < len candidate_embs)
                (find_similar query candidates top_k).*1).
Proof.
  split; [|split].
  - destruct (find_similar_cases query candidates top_k)
      as [-> | (qe & embs & sims & _ & Hc & _ & _)]; [constructor|].
    apply (find_similar_indices query candidates top_k embs Hc).
  - intros Hk.
    destruct (find_similar_cases query candidates top_k)
      as [-> | (qe & embs & sims & _ & _ & _ & ->)]; [exact Hk|].
    rewrite slice_to_len. destruct (Z.leb_spec 0 top_k); lia.
  - intros embs Hc. apply (find_similar_indices query candidates top_k embs Hc).
Qed.

(** X4: when the embeddings succeed, one vector of the model's dimension
    per candidate, [find_similar] returns min(top_k, len(candidates))
    pairs for [top_k >= 0]; for a negative [top_k] it returns all pairs
    but the last [-top_k], none when there are no more than that. *)
Theorem find_similar_count (query : string) (candidates : list string) (top_k : Z)
  (query_emb : list Q) (candidate_embs : list (list Q)) :
  encode query = Ok query_emb ->
  encode_batch candidates 32 = Ok candidate_embs ->
  length candidate_embs = length candidates ->
  Forall (fun emb => length emb = length query_emb) candidate_embs ->
  len (find_similar query candidates top_k)
  = if 0 <=? top_k then Z.min top_k (len candidates)
    else Z.max 0 (len candidates + top_k).
Proof.
  intros Hq Hc Hrows Hdim.
  set (similarities :=
         (fun entry : Z * list Q =>
            (entry.1,
             np_true_divide (dot query_emb entry.2)
                            (np_linalg_norm query_emb * np_linalg_norm entry.2)%Q))
           <$> enumerate candidate_embs).
  assert (Hrun : find_similar query candidates top_k
                 = slice_to (sort_similarities similarities) top_k).
  { destruct candidates as [|c cs].
    - destruct candidate_embs; [|discriminate].
      unfold similarities, slice_to. simpl.
      change (sort_similarities []) with (@nil (Z * pyfloat)).
      destruct (0 <=? top_k); rewrite take_nil; reflexivity.
    - unfold find_similar, find_similar_try. rewrite Hq, Hc.
      cbv beta iota delta [bind]. rewrite (similarities_of_ok _ _ Hdim). reflexivity. }
  rewrite Hrun, slice_to_len.
  assert (Hlen : len (sort_similarities similarities) = len candidates).
  { unfold len. rewrite (Permutation_length (sort_similarities_perm _)).
    unfold similarities. rewrite length_fmap.
    rewrite <- (length_fmap fst (enumerate candidate_embs)).
    unfold enumerate. rewrite enumerate_from_fst, length_seqZ.
    unfold len. rewrite Nat2Z.id. congruence. }
  rewrite Hlen. reflexivity.
Qed.

(** X5: the handler of the route [/find-similar] never raises its 500 as
    long as the model returns one embedding per candidate: every ranked
    index is paired with the candidate text at that position, and a
    failure of the model shows as an empty result list. *)
Theorem find_similar_endpoint_answers (query : string) (candidates : list string)
  (top_k : Z) :
  (forall candidate_embs,
      encode_batch candidates 32 = Ok candidate_embs ->
      length candidate_embs = length candidates) ->
  exists formatted,
    find_similar_endpoint query candidates top_k = Some formatted
    /\ Forall2 (fun (entry : Z * pyfloat) (out : Z * string * pyfloat) =>
                  out.1.1 = entry.1 /\ out.2 = entry.2
                  /\ candidates !! Z.to_nat entry.1 = Some out.1.2)
               (find_similar query candidates top_k) formatted
    /\ (forall e, encode query = Raise e \/ encode_batch candidates 32 = Raise e ->
                  formatted = []).
Proof.
  intros Hrows. unfold find_similar_endpoint.
  assert (Hvalid : Forall (fun entry : Z * pyfloat => 0 <= entry.1 < len candidates)
                          (find_similar query candidates top_k)).
  { destruct (find_similar_cases query candidates top_k)
      as [-> | (qe & embs & sims & _ & Hc & _ & _)]; [constructor|].
    destruct (find_similar_indices query candidates top_k embs Hc) as [_ Hrange].
    rewrite Forall_fmap in Hrange. eapply Forall_impl; [exact Hrange|].
    intros entry Hentry. simpl in Hentry. unfold len in *.
    rewrite <- (Hrows embs Hc). exact Hentry. }
  destruct (map_result_Forall2
              (fun entry : Z * pyfloat =>
                 (text <- py_index candidates entry.1 ;; Ok (entry.1, text, entry.2)))
              (fun (entry : Z * pyfloat) (out : Z * string * pyfloat) =>
                 out.1.1 = entry.1 /\ out.2 = entry.2
                 /\ candidates !! Z.to_nat entry.1 = Some out.1.2)
              (find_similar query candidates top_k))
    as (formatted & Hrun & Hpairs).
  { eapply Forall_impl; [exact Hvalid|]. intros entry Hentry.
    destruct (py_index_in_range candidates entry.1 Hentry) as (text & -> & Hlook).
    eexists. split; [reflexivity|]. repeat split. exact Hlook. }
  rewrite Hrun. exists formatted. split; [reflexivity|]. split; [exact Hpairs|].
  intros e Hfail.
  assert (Hnone : find_similar query candidates top_k = []).
  { destruct (find_similar_cases query candidates top_k)
      as [Hn | (qe & embs & sims & Hq & Hc & _ & _)]; [exact Hn|].
    destruct Hfail as [Hf | Hf]; congruence. }
  rewrite Hnone in Hpairs. inversion Hpairs. reflexivity.
Qed.

(** X6: [cluster_texts] always returns a partition of the text positions
    0 .. len(texts)-1, provided the clustering labels every text: each
    position is in exactly one cluster, whether the clusters come from
    the clustering or from the fallback; and the answer is either the
    singleton clusters or exactly [n_clusters] clusters. *)
Theorem cluster_texts_partition (texts : list string) (n_clusters : Z) :
  (forall embeddings kmeans,
      encode_batch texts 32 = Ok embeddings ->
      KMeans_fit n_clusters embeddings = Ok kmeans ->
      length (labels_ kmeans) = length texts) ->
  concat (cluster_texts texts n_clusters) ≡ₚ seqZ 0 (len texts)
  /\ (cluster_texts texts n_clusters = singletons texts
      \/ length (cluster_texts texts n_clusters) = Z.to_nat n_clusters).
Proof.
  intros Hlabels.
  assert (Hsingle : concat (singletons texts) ≡ₚ seqZ 0 (len texts)).
  { unfold singletons. rewrite concat_singletons. reflexivity. }
  unfold cluster_texts.
  destruct (len texts <? n_clusters); [split; [exact Hsingle | left; reflexivity]|].
  unfold cluster_texts_try.
  destruct (encode_batch texts 32) as [embeddings|e] eqn:Henc;
    [|split; [exact Hsingle | left; reflexivity]].
  cbv beta iota delta [bind].
  destruct (KMeans_fit n_clusters embeddings) as [kmeans|e] eqn:Hkm;
    [|split; [exact Hsingle | left; reflexivity]].
  destruct (fold_result _ _ _) as [clusters|e] eqn:Hfold;
    [|split; [exact Hsingle | left; reflexivity]].
  cbv beta iota delta [try_except].
  destruct (fold_append_at _ _ _ Hfold) as [Hlen Hperm].
  split.
  - rewrite Hperm, concat_replicate_nil. simpl.
    unfold enumerate. rewrite enumerate_from_fst. unfold len.
    rewrite (Hlabels embeddings kmeans eq_refl Hkm). reflexivity.
  - right. rewrite Hlen. apply length_replicate.
Qed.

(** X7: [cluster_texts] raises nothing: when the encoder or the
    clustering fails, or the clustering hands back a label that names no
    cluster, it falls back to one singleton cluster per text. *)
Theorem cluster_texts_fallback (texts : list string) (n_clusters : Z) :
  (exists e, encode_batch texts 32 = Raise e)
  \/ (exists embeddings e,
         encode_batch texts 32 = Ok embeddings
         /\ KMeans_fit n_clusters embeddings = Raise e)
  \/ (exists embeddings kmeans,
         encode_batch texts 32 = Ok embeddings
         /\ KMeans_fit n_clusters embeddings = Ok kmeans
         /\ Exists (fun label => ~ (- Z.max n_clusters 0 <= label < Z.max n_clusters 0))
                   (labels_ kmeans)) ->
  cluster_texts texts n_clusters = singletons texts.
Proof.
  intros Hfail. unfold cluster_texts.
  destruct (len texts <? n_clusters); [reflexivity|].
  unfold cluster_texts_try.
  destruct Hfail as [[e ->] | [(embeddings & e & -> & Hkm)
                              | (embeddings & kmeans & -> & Hkm & Hbad)]].
  - reflexivity.
  - cbv beta iota delta [bind]. rewrite Hkm. reflexivity.
  - cbv beta iota delta [bind]. rewrite Hkm.
    destruct (fold_append_at_raises (enumerate (labels_ kmeans))
                (replicate (Z.to_nat n_clusters) [])) as [e ->]; [|reflexivity].
    unfold len. rewrite length_replicate.
    assert (Hk : Z.of_nat (Z.to_nat n_clusters) = Z.max n_clusters 0) by lia.
    rewrite Hk. unfold enumerate.
    assert (Hgen : forall start,
               Exists (fun pair : Z * Z =>
                         ~ (- Z.max n_clusters 0 <= pair.2 < Z.max n_clusters 0))
                      (enumerate_from start (labels_ kmeans))).
    { induction Hbad as [label labels Hhere | label labels _ IH]; intros start; simpl.
      - apply Exists_cons_hd. exact Hhere.
      - apply Exists_cons_tl, IH. }
    apply Hgen.
Qed.

End EmbeddingServiceMore.

(** ** Keys of counters and the top of a ranking *)

Section CounterKeys.
Context {K : Type} `{EqDecision K}.

Lemma counter_incr_keys (k : K) (c : list (K * Z)) :
  (counter_incr k c).*1 = if decide (k ∈ c.*1) then c.*1 else c.*1 ++ [k].
Proof.
  induction c as [|[k0 n] c IH].
  - rewrite decide_False by (rewrite fmap_nil; apply not_elem_of_nil). reflexivity.
  - cbn [counter_incr]. destruct (decide (k = k0)) as [->|Hne].
    + rewrite !fmap_cons. cbn [fst].
      rewrite decide_True by apply list_elem_of_here. reflexivity.
    + rewrite !fmap_cons, IH. cbn [fst].
      destruct (decide (k ∈ c.*1)) as [Hin|Hout].
      * rewrite decide_True by (apply list_elem_of_further, Hin). reflexivity.
      * rewrite decide_False; [reflexivity|].
        intros Hin. apply elem_of_cons in Hin as [?|?]; congruence.
Qed.

Lemma counter_incr_NoDup (k : K) (c : list (K * Z)) :
  NoDup c.*1 -> NoDup (counter_incr k c).*1.
Proof.
  intros Hnd. rewrite counter_incr_keys.
  destruct (decide (k ∈ c.*1)) as [Hin|Hout]; [exact Hnd|].
  apply NoDup_app. split; [exact Hnd|]. split.
  - intros x Hx Hk. apply list_elem_of_singleton in Hk. congruence.
  - apply NoDup_singleton.
Qed.

Lemma counter_incr_elem (k k' : K) (c : list (K * Z)) :
  k' ∈ (counter_incr k c).*1 <-> k' = k \/ k' ∈ c.*1.
Proof.
  rewrite counter_incr_keys.
  destruct (decide (k ∈ c.*1)) as [Hin|Hout].
  - split; [auto | intros [->|?]; assumption].
  - rewrite elem_of_app, list_elem_of_singleton. tauto.
Qed.

Lemma counter_update_NoDup (l : list K) :
  forall c : list (K * Z), NoDup c.*1 -> NoDup (counter_update c l).*1.
Proof.
  unfold counter_update. induction l as [|x l IH]; intros c Hnd; simpl; [exact Hnd|].
  apply IH, counter_incr_NoDup, Hnd.
Qed.

Lemma counter_update_elem (l : list K) :
  forall (c : list (K * Z)) k,
    k ∈ (counter_update c l).*1 <-> k ∈ c.*1 \/ k ∈ l.
Proof.
  unfold counter_update. induction l as [|x l IH]; intros c k; simpl.
  - rewrite elem_of_nil. tauto.
  - rewrite IH, counter_incr_elem, elem_of_cons. tauto.
Qed.

Lemma Counter_NoDup (l : list K) : NoDup (Counter l).*1.
Proof. apply counter_update_NoDup. constructor. Qed.

Lemma Counter_elem (l : list K) (k : K) : k ∈ (Counter l).*1 <-> k ∈ l.
Proof.
  unfold Counter. rewrite counter_update_elem. simpl. rewrite elem_of_nil. tauto.
Qed.

(** The first [n] keys of a ranking of [c]: no more than [n], without
    repetition, all keys of [c]. *)
Lemma top_keys (n : nat) (key : K * Z -> Q) (c : list (K * Z)) :
  NoDup c.*1 ->
  (length (take n (sorted_reverse key c)).*1 <= n)%nat
  /\ NoDup (take n (sorted_reverse key c)).*1
  /\ forall k, k ∈ (take n (sorted_reverse key c)).*1 -> k ∈ c.*1.
Proof.
  intros Hnd.
  assert (Hsub : (take n (sorted_reverse key c)).*1 `sublist_of` (sorted_reverse key c).*1).
  { apply fmap_sublist, sublist_take. }
  assert (Hperm : (sorted_reverse key c).*1 ≡ₚ c.*1).
  { apply fmap_Permutation, sorted_reverse_perm. }
  split; [|split].
  - rewrite length_fmap, length_take. lia.
  - eapply sublist_NoDup; [|exact Hsub]. rewrite Hperm. exact Hnd.
  - intros k Hk. rewrite <- Hperm. eapply elem_of_sublist; [exact Hk | exact Hsub].
Qed.

End CounterKeys.

Lemma py_round_bounds (x : Q) (n : Z) (ndigits : nat) :
  (0 <= x)%Q -> (x <= inject_Z n)%Q ->
  (0 <= py_round x ndigits <= inject_Z n)%Q.
Proof.
  intros H0 Hn. unfold py_round.
  set (scale := 10 ^ Z.of_nat ndigits).
  assert (Hs : (0 < inject_Z scale)%Q) by (apply inject_Z_pos, pow10_pos).
  destruct (round_half_even_range (x * inject_Z scale) (n * scale)) as [Hlo Hhi].
  - nra.
  - rewrite inject_Z_mult. nra.
  - rewrite Zle_Qle in Hlo, Hhi. change (inject_Z 0) with 0%Q in Hlo.
    rewrite inject_Z_mult in Hhi.
    split.
    + apply Qle_shift_div_l; [exact Hs | lra].
    + apply Qle_shift_div_r; [exact Hs | lra].
Qed.

Lemma true_div_bounds (n m : Z) :
  0 <= n -> 1 <= m -> (0 <= true_div n m <= inject_Z n)%Q.
Proof.
  intros Hn Hm. unfold true_div.
  assert (Hn' : (0 <= inject_Z n)%Q).
  { change 0%Q with (inject_Z 0). rewrite <- Zle_Qle. exact Hn. }
  assert (Hm' : (1 <= inject_Z m)%Q).
  { change 1%Q with (inject_Z 1). rewrite <- Zle_Qle. exact Hm. }
  split.
  - apply Qle_shift_div_l; [lra | lra].
  - apply Qle_shift_div_r; [lra | nra].
Qed.

Lemma fold_result_abort {A S V : Type} (f : A -> result V) (g : S -> V -> S)
  (step : S -> A -> result S) (pre post : list A) (bad : A) (e : Exception) :
  (forall acc x, step acc x = (v <- f x ;; Ok (g acc v))) ->
  Forall (fun x => exists v, f x = Ok v) pre ->
  f bad = Raise e ->
  forall acc, fold_result step acc (pre ++ bad :: post) = Raise e.
Proof.
  intros Hstep Hpre Hbad.
  induction Hpre as [|x pre [v Hv] _ IH]; intros acc; simpl.
  - rewrite Hstep, Hbad. reflexivity.
  - rewrite Hstep, Hv. simpl. apply IH.
Qed.

(** ** More on posting and engagement patterns *)

Lemma strftime_A_day_name (d : datetime) : strftime_A d ∈ DAY_NAMES.
Proof.
  unfold strftime_A, weekday.
  pose proof (Z.mod_pos_bound (toordinal d + 6) 7 ltac:(lia)) as Hrange.
  destruct (DAY_NAMES !! Z.to_nat ((toordinal d + 6) mod 7)) as [name|] eqn:Hname.
  - simpl. apply list_elem_of_lookup. eauto.
  - apply lookup_ge_None in Hname. simpl in Hname. lia.
Qed.

Lemma datetime_lt_same_kind (a b : datetime) :
  aware a = aware b -> exists answer, datetime_lt a b = Ok answer.
Proof.
  unfold aware, datetime_lt, datetime_sub.
  destruct (utcoffset a), (utcoffset b); intros Hkind; try discriminate; simpl; eauto.
Qed.

Lemma datetime_lt_mixed (a b : datetime) :
  aware a <> aware b -> datetime_lt a b = Raise TypeError.
Proof.
  unfold aware, datetime_lt, datetime_sub.
  destruct (utcoffset a), (utcoffset b); intros Hkind; try congruence; reflexivity.
Qed.

Lemma datetime_max_mixed (rest : list datetime) :
  forall first,
    Exists (fun d => aware d <> aware first) rest ->
    datetime_max first rest = Raise TypeError.
Proof.
  induction rest as [|d rest IH]; intros first Hmixed; [inversion Hmixed|].
  simpl. destruct (decide (aware first = aware d)) as [Hsame | Hdiff].
  - destruct (datetime_lt_same_kind first d Hsame) as [answer ->]. simpl.
    apply IH. apply Exists_cons in Hmixed as [Hhere | Hlater]; [congruence|].
    eapply Exists_impl; [exact Hlater|]. intros x Hx.
    destruct answer; congruence.
  - rewrite (datetime_lt_mixed first d Hdiff). reflexivity.
Qed.

Section PostingMore.
Context `{Backend}.

(** X8: whatever the tweets, a pattern returned by
    [learn_posting_patterns] names at most five hours and at most three
    days, none twice, every day by its English name, and its
    [avg_per_day] lies between 0 and the number of tweets; for a
    non-empty request [total_analyzed] counts all tweets, dated or not. *)
Theorem posting_patterns_shape (tweets : list (gmap string pyval))
  (pattern : PostingPattern) :
  learn_posting_patterns tweets = Ok pattern ->
  (length (best_hours pattern) <= 5)%nat
  /\ NoDup (best_hours pattern)
  /\ (length (best_days pattern) <= 3)%nat
  /\ NoDup (best_days pattern)
  /\ Forall (fun name => name ∈ DAY_NAMES) (best_days pattern)
  /\ (0 <= avg_per_day pattern <= inject_Z (len tweets))%Q
  /\ (tweets <> [] -> total_analyzed pattern = Some (len tweets)).
Proof.
  intros Hrun. destruct tweets as [|tweet tweets].
  - injection Hrun as <-. simpl.
    repeat split; try constructor; try lia; try lra; try discriminate; congruence.
  - unfold learn_posting_patterns in Hrun.
    destruct (fold_result _ ([], []) (tweet :: tweets)) as [[hours days]|e] eqn:Hfold;
      cbv beta iota delta [bind] in Hrun; [|discriminate].
    destruct (_calculate_date_range (tweet :: tweets)) as [date_range|e];
      [|discriminate].
    injection Hrun as <-. cbn [best_hours best_days avg_per_day total_analyzed fst snd].
    unfold most_common.
    destruct (top_keys 5 (fun kv : Z * Z => inject_Z kv.2) (Counter hours)
                (Counter_NoDup hours)) as (Hh1 & Hh2 & _).
    destruct (top_keys 3 (fun kv : string * Z => inject_Z kv.2) (Counter days)
                (Counter_NoDup days)) as (Hd1 & Hd2 & Hd3).
    split; [exact Hh1|]. split; [exact Hh2|]. split; [exact Hd1|].
    split; [exact Hd2|]. split; [|split; [|reflexivity]].
    + rewrite Forall_forall. intros name Hname.
      apply Hd3 in Hname. apply (proj1 (Counter_elem _ _)) in Hname.
      assert (Hdays : forall tws acc out,
                 fold_result
                   (fun '(hours, days) tweet =>
                      (created_at <- created_at_of tweet ;;
                       Ok (match created_at with
                           | Some d => (hours ++ [hour d], days ++ [strftime_A d])
                           | None => (hours, days)
                           end)))
                   acc tws = Ok out ->
                 Forall (fun name => name ∈ DAY_NAMES) acc.2 ->
                 Forall (fun name => name ∈ DAY_NAMES) out.2).
      { induction tws as [|tw tws IH]; intros [hs ds] out Hout Hacc; simpl in Hout.
        - injection Hout as <-. exact Hacc.
        - destruct (created_at_of tw) as [[d|]|e];
            cbv beta iota delta [bind] in Hout; [| |discriminate].
          + apply (IH _ _ Hout). simpl. apply Forall_app. split; [exact Hacc|].
            constructor; [apply strftime_A_day_name | constructor].
          + apply (IH _ _ Hout). exact Hacc. }
      specialize (Hdays _ _ _ Hfold (Forall_nil_2 _)). simpl in Hdays.
      rewrite Forall_forall in Hdays. apply Hdays, Hname.
    + apply py_round_bounds; apply true_div_bounds; unfold len; lia.
Qed.

(** X9: one timestamp that cannot be parsed aborts the whole of
    [learn_posting_patterns]: the exception of the first such tweet is
    raised, whatever the other tweets are. *)
Theorem posting_patterns_abort (pre post : list (gmap string pyval))
  (bad : gmap string pyval) (e : Exception) :
  Forall (fun tweet => exists created_at, created_at_of tweet = Ok created_at) pre ->
  created_at_of bad = Raise e ->
  learn_posting_patterns (pre ++ bad :: post) = Raise e.
Proof.
  intros Hpre Hbad. unfold learn_posting_patterns.
  destruct (pre ++ bad :: post) as [|tweet tweets] eqn:Hlist.
  { destruct pre; discriminate. }
  rewrite <- Hlist.
  rewrite (fold_result_abort created_at_of
             (fun (acc : list Z * list string) created_at =>
                match created_at with
                | Some d => (acc.1 ++ [hour d], acc.2 ++ [strftime_A d])
                | None => acc
                end) _ pre post bad e); [reflexivity | | exact Hpre | exact Hbad].
  intros [hours days] tw. destruct (created_at_of tw) as [[d|]|]; reflexivity.
Qed.

(** X10: when every tweet carries a readable timestamp but some are
    given with an offset from UTC and some without,
    [learn_posting_patterns] raises [TypeError]: such timestamps cannot
    be ordered to find the date range. *)
Theorem posting_patterns_mixed_offsets (tweets : list (gmap string pyval))
  (stamps : list datetime) :
  Forall2 posted_at tweets stamps ->
  Exists (fun d => aware d = true) stamps ->
  Exists (fun d => aware d = false) stamps ->
  learn_posting_patterns tweets = Raise TypeError.
Proof.
  intros Hposted Haware Hnaive.
  assert (Hrange : _calculate_date_range tweets = Raise TypeError).
  { unfold _calculate_date_range.
    rewrite (fold_result_ok _ (fun dates d => dates ++ [id d]) tweets stamps).
    2: { eapply Forall2_impl; [exact Hposted|].
         intros tweet d Hp acc. unfold posted_at in Hp. rewrite Hp. reflexivity. }
    rewrite (foldl_snoc id), list_fmap_id. cbn [bind app].
    destruct stamps as [|first rest]; [inversion Haware|].
    assert (Hmixed : Exists (fun d => aware d <> aware first) rest).
    { apply Exists_cons in Haware as [Ha | Ha];
        apply Exists_cons in Hnaive as [Hn | Hn]; try congruence.
      - eapply Exists_impl; [exact Hn|]. intros d Hd. congruence.
      - eapply Exists_impl; [exact Ha|]. intros d Hd. congruence.
      - destruct (aware first) eqn:Hfirst.
        + eapply Exists_impl; [exact Hn|]. intros d Hd. congruence.
        + eapply Exists_impl; [exact Ha|]. intros d Hd. congruence. }
    destruct rest as [|second rest]; [inversion Hmixed|].
    rewrite (datetime_max_mixed _ _ Hmixed). reflexivity. }
  destruct tweets as [|tweet tweets].
  { apply Forall2_nil_inv_l in Hposted. subst. inversion Haware. }
  unfold learn_posting_patterns. rewrite Hrange.
  rewrite (fold_result_ok _
             (fun (acc : list Z * list string) d =>
                (acc.1 ++ [hour d], acc.2 ++ [strftime_A d]))
             (tweet :: tweets) stamps).
  - reflexivity.
  - eapply Forall2_impl; [exact Hposted|].
    intros tw d Hp [hours days]. unfold posted_at in Hp. rewrite Hp. reflexivity.
Qed.

Lemma count_interaction_inv (acc acc' : list (pyval * Z) * list (Z * Z))
  (interaction : gmap string pyval) :
  count_interaction acc interaction = Ok acc' ->
  Zsum acc'.1.*2 = Zsum acc.1.*2 + 1
  /\ (NoDup acc.1.*1 -> NoDup acc'.1.*1)
  /\ (NoDup acc.2.*1 -> NoDup acc'.2.*1).
Proof.
  unfold count_interaction. intros Hrun.
  assert (Hcases : (acc'.1 = counter_incr
                               (default (PyStr "unknown")
                                        (interaction !! "interaction_type"%string)) acc.1)
                   /\ (acc'.2 = acc.2 \/ exists h, acc'.2 = counter_incr h acc.2)).
  { destruct (interaction !! "created_at"%string) as [[|s|d]|].
    - injection Hrun as <-. auto.
    - destruct s as [|c s].
      + injection Hrun as <-. auto.
      + destruct (fromisoformat _) as [d|e]; cbv beta iota delta [bind] in Hrun;
          [|discriminate].
        injection Hrun as <-. simpl. eauto.
    - injection Hrun as <-. simpl. eauto.
    - injection Hrun as <-. auto. }
  destruct Hcases as [-> Hhours].
  split; [apply (counter_values_incr acc.1)|].
  split; [apply counter_incr_NoDup|].
  destruct Hhours as [-> | [h ->]]; [auto | apply counter_incr_NoDup].
Qed.

(** X11: in a report of [learn_engagement_patterns] every interaction is
    counted under exactly one type, so the counts by type add up to
    [total_interactions], the number of interactions; no type is listed
    twice, and at most five hours are named, none twice. *)
Theorem engagement_patterns_shape (interactions : list (gmap string pyval))
  (pattern : EngagementPattern) :
  learn_engagement_patterns interactions = Ok (Some pattern) ->
  eng_total_interactions pattern = len interactions
  /\ Zsum (eng_by_type pattern).*2 = len interactions
  /\ NoDup (eng_by_type pattern).*1
  /\ (length (eng_most_engaging_hours pattern) <= 5)%nat
  /\ NoDup (eng_most_engaging_hours pattern).
Proof.
  intros Hrun. destruct interactions as [|i0 rest]; [discriminate|].
  unfold learn_engagement_patterns in Hrun.
  destruct (fold_result count_interaction ([], []) (i0 :: rest)) as [counts|e] eqn:Hfold;
    cbv beta iota delta [bind] in Hrun; [|discriminate].
  injection Hrun as <-.
  cbn [eng_total_interactions eng_by_type eng_most_engaging_hours].
  assert (Hinv : forall l acc out,
             fold_result count_interaction acc l = Ok out ->
             Zsum out.1.*2 = Zsum acc.1.*2 + len l
             /\ (NoDup acc.1.*1 -> NoDup out.1.*1)
             /\ (NoDup acc.2.*1 -> NoDup out.2.*1)).
  { unfold len. induction l as [|i l IH]; intros acc out Hout; simpl in Hout.
    - injection Hout as <-. simpl. split; [lia | auto].
    - destruct (count_interaction acc i) as [next|e] eqn:Hstep;
        cbv beta iota delta [bind] in Hout; [|discriminate].
      destruct (count_interaction_inv _ _ _ Hstep) as (Hs & Hn1 & Hn2).
      destruct (IH _ _ Hout) as (Hs' & Hn1' & Hn2').
      split; [simpl length; lia | auto]. }
  destruct (Hinv _ _ _ Hfold) as (Hsum & Hnd1 & Hnd2).
  destruct (top_keys 5 (fun kv : Z * Z => inject_Z kv.2) counts.2
              (Hnd2 (NoDup_nil_2 (A:=Z)))) as (Hlen & Hnd & _).
  split; [reflexivity|]. split; [exact Hsum|].
  split; [apply Hnd1; constructor|]. split; [exact Hlen | exact Hnd].
Qed.

End PostingMore.

(** ** More on content topics *)

Lemma map_result_inv {A B : Type} (f : A -> result B) (l : list A) :
  forall r, map_result f l = Ok r -> Forall2 (fun x y => f x = Ok y) l r.
Proof.
  induction l as [|x l IH]; intros r Hrun; simpl in Hrun.
  - injection Hrun as <-. constructor.
  - destruct (f x) as [y|e] eqn:Hx; cbv beta iota delta [bind] in Hrun; [|discriminate].
    destruct (map_result f l) as [ys|e]; [|discriminate].
    injection Hrun as <-. constructor; [exact Hx | apply IH; reflexivity].
Qed.

Lemma StronglySorted_weaken {A : Type} (R R' : A -> A -> Prop) (l : list A) :
  (forall a b, R a b -> R' a b) -> StronglySorted R l -> StronglySorted R' l.
Proof.
  intros Himpl. induction 1 as [|a l _ IH Ha]; constructor; [exact IH|].
  eapply Forall_impl; [exact Ha|]. intros b. apply Himpl.
Qed.

Lemma StronglySorted_trivial {A : Type} (l : list A) :
  StronglySorted (fun _ _ => True) l.
Proof.
  induction l as [|a l IH]; constructor; [exact IH|].
  rewrite Forall_forall. intros b _. exact I.
Qed.

Section ContentTopicsMore.
Context `{Backend}.

Lemma topic_of_inv (tweets : list string) (kmeans : KMeansFit)
  (feature_names : list string) (i : Z) (topic : Topic) :
  topic_of tweets kmeans feature_names i = Ok topic ->
  cluster_id topic = i
  /\ (length (keywords topic) <= 5)%nat
  /\ Forall (fun word => word ∈ feature_names) (keywords topic)
  /\ tweet_count topic = len (filter (fun label => label = i) (labels_ kmeans))
  /\ prominence topic = py_round (true_div (tweet_count topic) (len tweets)) 3.
Proof.
  unfold topic_of. intros Hrun.
  destruct (py_index (cluster_centers_ kmeans) i) as [center|e];
    cbv beta iota delta [bind] in Hrun; [|discriminate].
  destruct (map_result (py_index feature_names)
              (reverse (slice_last 10 (np_argsort center)))) as [kw|e] eqn:Hkw;
    [|discriminate].
  injection Hrun as <-. cbn [cluster_id keywords tweet_count prominence].
  split; [reflexivity|]. split; [rewrite length_take; lia|].
  split; [|split; reflexivity].
  apply Forall_take. apply map_result_inv in Hkw.
  induction Hkw as [|idx word idxs words Hword _ IH]; constructor; [|exact IH].
  unfold py_index in Hword.
  destruct ((if idx <? 0 then len feature_names + idx else idx) <? 0); [discriminate|].
  destruct (feature_names !! _) as [w|] eqn:Hw; [|discriminate].
  injection Hword as <-. apply list_elem_of_lookup. eauto.
Qed.

(** Either [learn_content_topics] answers the empty list, or its guarded
    block went through. *)
Lemma content_topics_cases (tweets : list string) (n_clusters : Z) :
  learn_content_topics tweets n_clusters = []
  \/ exists fitted kmeans topics,
       n_clusters <= len tweets
       /\ tfidf_fit_transform tweets = Ok fitted
       /\ KMeans_fit n_clusters fitted.1 = Ok kmeans
       /\ Forall2 (fun i topic => topic_of tweets kmeans fitted.2 i = Ok topic)
                  (seqZ 0 n_clusters) topics
       /\ learn_content_topics tweets n_clusters = sorted_reverse prominence topics.
Proof.
  unfold learn_content_topics, learn_content_topics_try.
  destruct (Z.ltb_spec (len tweets) n_clusters); [left; reflexivity|].
  destruct (tfidf_fit_transform tweets) as [fitted|e] eqn:Hfit; [|left; reflexivity].
  cbv beta iota delta [bind].
  destruct (KMeans_fit n_clusters fitted.1) as [kmeans|e] eqn:Hkm; [|left; reflexivity].
  destruct (map_result (topic_of tweets kmeans fitted.2) (seqZ 0 n_clusters))
    as [topics|e] eqn:Hrun; [|left; reflexivity].
  right. exists fitted, kmeans, topics.
  split; [lia|]. split; [reflexivity|]. split; [exact Hkm|].
  split; [apply map_result_inv, Hrun | reflexivity].
Qed.

(** X12: a non-empty answer of [learn_content_topics] has exactly one
    topic per cluster id 0 .. n_clusters-1, and is given only when there
    are at least [n_clusters] tweets; in every answer a topic has at most
    five keywords and the topics are in descending order of prominence. *)
Theorem content_topics_shape (tweets : list string) (n_clusters : Z) :
  (learn_content_topics tweets n_clusters = []
   \/ (cluster_id <$> learn_content_topics tweets n_clusters ≡ₚ seqZ 0 n_clusters
       /\ 0 < n_clusters <= len tweets))
  /\ Forall (fun topic => (length (keywords topic) <= 5)%nat)
            (learn_content_topics tweets n_clusters)
  /\ StronglySorted (fun a b => (prominence b <= prominence a)%Q)
                    (learn_content_topics tweets n_clusters).
Proof.
  destruct (content_topics_cases tweets n_clusters)
    as [-> | (fitted & kmeans & topics & Hk & _ & _ & Htopics & ->)].
  { split; [left; reflexivity|]. split; constructor. }
  assert (Hids : cluster_id <$> topics = seqZ 0 n_clusters).
  { clear Hk. induction Htopics as [|i topic ids topics Ht _ IH]; [reflexivity|].
    rewrite fmap_cons, IH. f_equal. apply (topic_of_inv _ _ _ _ _ Ht). }
  pose proof (sorted_reverse_perm prominence topics) as Hperm.
  split; [|split].
  - destruct topics as [|topic topics]; [left; reflexivity|]. right. split.
    + rewrite <- Hids. apply fmap_Permutation, Hperm.
    + split; [|exact Hk].
      destruct (Z.ltb_spec 0 n_clusters) as [Hpos | Hneg]; [exact Hpos|].
      rewrite seqZ_nil in Hids by exact Hneg. discriminate.
  - rewrite Hperm. clear Hids Hperm.
    induction Htopics as [|i topic ids topics Ht _ IH]; constructor; [|exact IH].
    apply (topic_of_inv _ _ _ _ _ Ht).
  - eapply StronglySorted_weaken;
      [|apply (sorted_reverse_sorted prominence (fun _ _ => True)),
               StronglySorted_trivial].
    intros a b. apply precedes_key.
Qed.

(** X13: when the clustering labels every tweet, each returned topic
    counts between 0 and len(tweets) members and has a prominence in
    [0, 1]. *)
Theorem content_topics_ranges (tweets : list string) (n_clusters : Z) :
  (forall fitted kmeans,
      tfidf_fit_transform tweets = Ok fitted ->
      KMeans_fit n_clusters fitted.1 = Ok kmeans ->
      length (labels_ kmeans) = length tweets) ->
  Forall (fun topic =>
            0 <= tweet_count topic <= len tweets
            /\ (0 <= prominence topic <= 1)%Q)
         (learn_content_topics tweets n_clusters).
Proof.
  intros Hlabels.
  destruct (content_topics_cases tweets n_clusters)
    as [-> | (fitted & kmeans & topics & Hk & Hfit & Hkm & Htopics & ->)];
    [constructor|].
  rewrite (sorted_reverse_perm prominence topics).
  specialize (Hlabels fitted kmeans Hfit Hkm).
  induction Htopics as [|i topic ids topics Ht _ IH]; constructor; [|exact IH].
  destruct (topic_of_inv _ _ _ _ _ Ht) as (_ & _ & _ & Hcount & Hprom).
  assert (Hrange : 0 <= tweet_count topic <= len tweets).
  { rewrite Hcount. unfold len. rewrite <- Hlabels.
    pose proof (length_filter (fun label => label = i) (labels_ kmeans)). lia. }
  split; [exact Hrange|].
  rewrite Hprom. apply py_round_unit. unfold true_div.
  destruct (Z.eq_dec (len tweets) 0) as [Hzero | Hpos].
  - assert (Hc : tweet_count topic = 0) by lia. rewrite Hc, Hzero.
    change (0 <= 0 <= 1)%Q. lra.
  - assert (Hn : (0 < inject_Z (len tweets))%Q) by (apply inject_Z_pos; lia).
    assert (Hc0 : (0 <= inject_Z (tweet_count topic))%Q).
    { change 0%Q with (inject_Z 0). rewrite <- Zle_Qle. lia. }
    assert (Hcn : (inject_Z (tweet_count topic) <= inject_Z (len tweets))%Q).
    { rewrite <- Zle_Qle. lia. }
    split.
    + apply Qle_shift_div_l; [exact Hn | lra].
    + apply Qle_shift_div_r; [exact Hn | lra].
Qed.

End ContentTopicsMore.

(** ** Vocabulary *)

Lemma counter_incr_length {K : Type} `{EqDecision K} (k : K) (c : list (K * Z)) :
  (length (counter_incr k c) <= S (length c))%nat.
Proof.
  induction c as [|[k0 n] c IH]; simpl; [lia|].
  destruct (decide (k = k0)); simpl; lia.
Qed.

Lemma Counter_length {K : Type} `{EqDecision K} (l : list K) :
  (length (Counter l) <= length l)%nat.
Proof.
  unfold Counter, counter_update.
  assert (Hgen : forall c : list (K * Z),
             (length (foldl (fun acc k => counter_incr k acc) c l)
              <= length c + length l)%nat).
  { induction l as [|x l IH]; intros c; simpl; [lia|].
    specialize (IH (counter_incr x c)).
    pose proof (counter_incr_length x c). lia. }
  apply (Hgen []).
Qed.

Lemma size_list_to_set_Counter (l : list string) :
  size (list_to_set l : gset string) = length (Counter l).
Proof.
  rewrite <- (length_fmap fst (Counter l)).
  rewrite <- (size_list_to_set (C:=gset string) (Counter l).*1 (Counter_NoDup l)).
  f_equal. apply set_eq. intros w.
  rewrite !elem_of_list_to_set, Counter_elem. reflexivity.
Qed.

Section VocabularyFacts.
Context `{Backend}.
Variable str_split : string -> list string.

(** X14: the common words of [learn_vocabulary] are at most twenty
    different words of the lower-cased text, none of them one of the
    eleven stop words and none shorter than three characters; the common
    phrases are at most ten, none twice. *)
Theorem vocabulary_common_words (tweets : list string) (vocabulary : Vocabulary) :
  learn_vocabulary str_split tweets = Some vocabulary ->
  (length (common_words vocabulary) <= 20)%nat
  /\ NoDup (common_words vocabulary)
  /\ Forall (fun word =>
               word ∈ str_split (str_lower (str_join " " tweets))
               /\ (word ∉ stop_words)
               /\ 2 < str_len word)
            (common_words vocabulary)
  /\ (length (common_phrases vocabulary) <= 10)%nat
  /\ NoDup (common_phrases vocabulary).
Proof.
  intros Hrun. destruct tweets as [|tweet tweets]; [discriminate|].
  unfold learn_vocabulary in Hrun. injection Hrun as <-.
  cbn [common_words common_phrases].
  set (words := str_split (str_lower (str_join " " (tweet :: tweets)))).
  set (keep := fun kv : string * Z => (kv.1 ∉ stop_words) /\ 2 < str_len kv.1).
  assert (Hsub : (filter keep (Counter words)).*1 `sublist_of` (Counter words).*1).
  { apply fmap_sublist, sublist_filter. }
  assert (Hnd : NoDup (filter keep (Counter words)).*1).
  { eapply sublist_NoDup; [apply Counter_NoDup | exact Hsub]. }
  destruct (top_keys 20 (fun kv : string * Z => inject_Z kv.2)
              (filter keep (Counter words)) Hnd) as (Hlen & Hnd' & Hin).
  split; [exact Hlen|]. split; [exact Hnd'|]. split.
  - rewrite Forall_forall. intros word Hword. apply Hin in Hword.
    apply list_elem_of_fmap in Hword as ([w n] & -> & Hkv).
    apply list_elem_of_filter in Hkv as [[Hstop Hlong] Hkv].
    split; [|split; assumption].
    apply (proj1 (Counter_elem words w)).
    apply list_elem_of_fmap. exists (w, n). split; [reflexivity | exact Hkv].
  - unfold most_common.
    match goal with
    | |- context [Counter ?bigrams] =>
        destruct (top_keys 10 (fun kv : string * Z => inject_Z kv.2)
                    (Counter bigrams) (Counter_NoDup bigrams)) as (Hl & Hn & _)
    end.
    split; assumption.
Qed.

(** X15: [learn_vocabulary] never counts more unique words than words,
    counts no unique word exactly when the text has no word at all, and
    that is the one case in which the mean word length is not a number. *)
Theorem vocabulary_counts (tweets : list string) (vocabulary : Vocabulary) :
  learn_vocabulary str_split tweets = Some vocabulary ->
  0 <= unique_words vocabulary <= total_words vocabulary
  /\ (unique_words vocabulary = 0 <-> total_words vocabulary = 0)
  /\ (avg_word_length vocabulary = None <-> total_words vocabulary = 0).
Proof.
  intros Hrun. destruct tweets as [|tweet tweets]; [discriminate|].
  unfold learn_vocabulary in Hrun.
  set (words := str_split (str_lower (str_join " " (tweet :: tweets)))) in Hrun.
  clearbody words. injection Hrun as <-.
  cbv beta iota zeta delta [unique_words total_words avg_word_length].
  rewrite size_list_to_set_Counter. unfold len.
  pose proof (Counter_length words) as Hle.
  assert (Hzero : length (Counter words) = 0%nat <-> length words = 0%nat).
  { split; intros Hz.
    - destruct words as [|w ws] eqn:Hw; [reflexivity|].
      assert (Hin : w ∈ (Counter (w :: ws)).*1)
        by (apply Counter_elem, list_elem_of_here).
      destruct (Counter (w :: ws)); [inversion Hin | discriminate].
    - lia. }
  destruct Hzero as [Hz1 Hz2].
  split; [lia|].
  split; [split; intros Hz;
          [assert (length (Counter words) = 0%nat) by lia
          |assert (length words = 0%nat) by lia]; lia|].
  destruct words; simpl; split; intros; (discriminate || reflexivity || lia).
Qed.

End VocabularyFacts.

(** ** Describing a personality *)

Lemma description_of_five (o c e a n : Q) (scores : gmap string Q) :
  scores !! "openness"%string = Some o ->
  scores !! "conscientiousness"%string = Some c ->
  scores !! "extraversion"%string = Some e ->
  scores !! "agreeableness"%string = Some a ->
  scores !! "neuroticism"%string = Some n ->
  exists description,
    get_personality_description scores = Some description
    /\ description <> EmptyString
    /\ (description = "balanced and adaptable"%string
        <-> (o <= 6 # 10 /\ c <= 6 # 10 /\ e <= 6 # 10 /\ a <= 6 # 10
             /\ 4 # 10 <= n)%Q).
Proof.
  intros Ho Hc He Ha Hn. unfold get_personality_description.
  rewrite Ho, Hc, He, Ha, Hn. cbn [mbind option_bind].
  destruct (Qltb (6 # 10) o) eqn:Eo, (Qltb (6 # 10) c) eqn:Ec,
           (Qltb (6 # 10) e) eqn:Ee, (Qltb (6 # 10) a) eqn:Ea,
           (Qltb n (4 # 10)) eqn:En;
    repeat match goal with
           | E : Qltb _ _ = true |- _ => apply Qltb_true in E
           | E : Qltb _ _ = false |- _ => apply Qltb_false in E
           end;
    (eexists; split; [reflexivity|]; split; [discriminate|];
     split; [first [discriminate | intros _; repeat split; assumption]
            | first [reflexivity | intros (? & ? & ? & ? & ?); exfalso; lra]]).
Qed.

Section DescriptionFacts.
Context `{Backend}.

Lemma analyze_texts_dom (texts : list string) (scores : gmap string Q) :
  analyze_texts texts = Ok scores -> dom scores = TRAITS.
Proof.
  intros Hrun. destruct texts as [|text texts].
  - injection Hrun as <-. apply default_personality_invariant.
  - unfold analyze_texts in Hrun.
    destruct (fold_result aggregate_text empty_features (text :: texts))
      as [features|e]; cbv beta iota delta [bind] in Hrun; [|discriminate].
    injection Hrun as <-.
    pose proof (personality_fold features TRAIT_INDICATORS ∅) as Hscores.
    cbv zeta in Hscores. destruct Hscores as [Hdom _].
    etransitivity; [exact Hdom | reflexivity].
Qed.

(** X16: [get_personality_description] fails with a missing key exactly
    when one of the five traits is absent from the scores; other keys
    are ignored. *)
Theorem description_missing_trait (scores : gmap string Q) :
  get_personality_description scores = None <-> ~ (TRAITS ⊆ dom scores).
Proof.
  split.
  - intros Hnone Hall.
    assert (Hsome : forall t, t ∈ TRAITS -> is_Some (scores !! t)).
    { intros t Ht. apply elem_of_dom, Hall, Ht. }
    destruct (Hsome "openness"%string ltac:(set_solver)) as [o Ho].
    destruct (Hsome "conscientiousness"%string ltac:(set_solver)) as [c Hc].
    destruct (Hsome "extraversion"%string ltac:(set_solver)) as [e He].
    destruct (Hsome "agreeableness"%string ltac:(set_solver)) as [a Ha].
    destruct (Hsome "neuroticism"%string ltac:(set_solver)) as [n Hn].
    destruct (description_of_five o c e a n scores Ho Hc He Ha Hn) as (d & Hd & _).
    congruence.
  - intros Hmissing.
    destruct (get_personality_description scores) as [d|] eqn:Hd; [|reflexivity].
    exfalso. apply Hmissing. unfold get_personality_description in Hd.
    destruct (scores !! "openness"%string) as [o|] eqn:Ho; [|discriminate].
    destruct (scores !! "conscientiousness"%string) as [c|] eqn:Hc; [|discriminate].
    destruct (scores !! "extraversion"%string) as [e|] eqn:He; [|discriminate].
    destruct (scores !! "agreeableness"%string) as [a|] eqn:Ha; [|discriminate].
    destruct (scores !! "neuroticism"%string) as [n|] eqn:Hn; [|discriminate].
    intros t Ht. apply elem_of_dom. unfold TRAITS in Ht.
    repeat (apply elem_of_union in Ht as [Ht | Ht]);
      apply elem_of_singleton in Ht; subst t; eauto.
Qed.

(** X17: the scores that [analyze_texts] returns can always be described:
    the description that the route [/analyze-personality] asks for next
    raises no missing key and is never the empty string. *)
Theorem analyze_then_describe (texts : list string) (scores : gmap string Q) :
  analyze_texts texts = Ok scores ->
  exists description,
    get_personality_description scores = Some description
    /\ description <> EmptyString.
Proof.
  intros Hrun. pose proof (analyze_texts_dom texts scores Hrun) as Hdom.
  assert (Hsome : forall t, t ∈ TRAITS -> is_Some (scores !! t)).
  { intros t Ht. apply elem_of_dom. rewrite Hdom. exact Ht. }
  destruct (Hsome "openness"%string ltac:(set_solver)) as [o Ho].
  destruct (Hsome "conscientiousness"%string ltac:(set_solver)) as [c Hc].
  destruct (Hsome "extraversion"%string ltac:(set_solver)) as [e He].
  destruct (Hsome "agreeableness"%string ltac:(set_solver)) as [a Ha].
  destruct (Hsome "neuroticism"%string ltac:(set_solver)) as [n Hn].
  destruct (description_of_five o c e a n scores Ho Hc He Ha Hn) as (d & Hd & Hne & _).
  eauto.
Qed.

(** X18: with the five scores present, the fallback phrase "balanced and
    adaptable" is the description exactly when no trait crosses its
    threshold: openness, conscientiousness, extraversion and
    agreeableness at most 0.6, neuroticism at least 0.4. *)
Theorem description_fallback (o c e a n : Q) (scores : gmap string Q) :
  scores !! "openness"%string = Some o ->
  scores !! "conscientiousness"%string = Some c ->
  scores !! "extraversion"%string = Some e ->
  scores !! "agreeableness"%string = Some a ->
  scores !! "neuroticism"%string = Some n ->
  get_personality_description scores = Some "balanced and adaptable"%string
  <-> (o <= 6 # 10 /\ c <= 6 # 10 /\ e <= 6 # 10 /\ a <= 6 # 10 /\ 4 # 10 <= n)%Q.
Proof.
  intros Ho Hc He Ha Hn.
  destruct (description_of_five o c e a n scores Ho Hc He Ha Hn) as (d & Hd & _ & Hiff).
  rewrite Hd. rewrite <- Hiff. split; [intros Heq; injection Heq as ->; reflexivity|].
  intros ->. reflexivity.
Qed.

(** X19: a tagger or sentiment call that fails on one text aborts the
    whole of [analyze_texts]: the exception of the first such text is
    raised, whatever the other texts are. *)
Theorem analyze_texts_abort (pre post : list string) (bad : string) (e : Exception) :
  Forall (fun text => exists features, _extract_features text = Ok features) pre ->
  _extract_features bad = Raise e ->
  analyze_texts (pre ++ bad :: post) = Raise e.
Proof.
  intros Hpre Hbad. unfold analyze_texts.
  destruct (pre ++ bad :: post) as [|text texts] eqn:Hlist.
  { destruct pre; discriminate. }
  rewrite <- Hlist.
  rewrite (fold_result_abort _extract_features
             (fun (all_features : AllFeatures) features =>
                {| word_freq := counter_update (word_freq all_features)
                                               (feat_words features);
                   pos_tag_freq := counter_update (pos_tag_freq all_features)
                                                  (feat_pos_tags features);
                   sentiments := sentiments all_features ++ [feat_sentiment features];
                   avg_length := avg_length all_features ++ [feat_length features];
                   complexity := complexity all_features ++ [feat_complexity features] |})
             _ pre post bad e); [reflexivity | | exact Hpre | exact Hbad].
  intros acc text'. reflexivity.
Qed.

End DescriptionFacts.

(** ** Concrete runs of the further properties *)

Lemma similarity_self_witness :
  @encode sample_backend "a cat" = Ok [3; 4]%Q
  /\ (@similarity sample_backend "a cat" "a cat" == 1)%Q.
Proof.
  split; [reflexivity|].
  apply (@similarity_self sample_backend "a cat" [3; 4]%Q).
  - reflexivity.
  - vm_compute. reflexivity.
  - vm_compute. discriminate.
Defined.

Lemma find_similar_count_witness :
  len (@find_similar sample_backend "a cat" ["dog"; "cat"; "bird"; "the cat"] (-1)) = 3
  /\ len (@find_similar sample_backend "a cat" ["dog"; "cat"; "bird"; "the cat"] 9) = 4.
Proof.
  split.
  - apply (@find_similar_count sample_backend "a cat"
             ["dog"; "cat"; "bird"; "the cat"] (-1)
             [3; 4]%Q [[4; 3]; [3; 4]; [0; 1]; [3; 4]]%Q);
      try reflexivity; repeat constructor.
  - apply (@find_similar_count sample_backend "a cat"
             ["dog"; "cat"; "bird"; "the cat"] 9
             [3; 4]%Q [[4; 3]; [3; 4]; [0; 1]; [3; 4]]%Q);
      try reflexivity; repeat constructor.
Defined.

Lemma find_similar_endpoint_answers_witness :
  exists formatted,
    @find_similar_endpoint sample_backend "a cat" ["dog"; "cat"; "bird"; "the cat"] 2
    = Some formatted
    /\ formatted = [(1, "cat"%string, Finite (25 # 25));
                    (3, "the cat"%string, Finite (25 # 25))].
Proof.
  destruct (@find_similar_endpoint_answers sample_backend "a cat"
              ["dog"; "cat"; "bird"; "the cat"] 2) as (formatted & Hrun & _ & _).
  - intros embs Henc. vm_compute in Henc. injection Henc as <-. reflexivity.
  - exists formatted. split; [exact Hrun|].
    vm_compute in Hrun. injection Hrun as <-. reflexivity.
Defined.

Lemma cluster_texts_partition_witness :
  concat (@cluster_texts sample_backend ["a"; "bb"; "ccc"] 2) ≡ₚ seqZ 0 3
  /\ @cluster_texts sample_backend ["a"; "bb"; "ccc"] 2 = [[0; 2]; [1]].
Proof.
  destruct (@cluster_texts_partition sample_backend ["a"; "bb"; "ccc"] 2)
    as [Hperm _].
  - intros embeddings kmeans Henc Hkm.
    vm_compute in Henc. injection Henc as <-.
    vm_compute in Hkm. injection Hkm as <-. reflexivity.
  - split; [exact Hperm | reflexivity].
Defined.

Lemma cluster_texts_fallback_witness :
  @cluster_texts sample_backend ["a"; ""; "ccc"] 2 = [[0]; [1]; [2]].
Proof.
  rewrite (@cluster_texts_fallback sample_backend ["a"; ""; "ccc"] 2).
  - reflexivity.
  - left. exists RuntimeError. reflexivity.
Defined.

Lemma posting_patterns_shape_witness :
  exists pattern,
    @learn_posting_patterns sample_backend monday_tweets = Ok pattern
    /\ (length (best_hours pattern) <= 5)%nat
    /\ NoDup (best_days pattern)
    /\ (0 <= avg_per_day pattern <= inject_Z (len monday_tweets))%Q.
Proof.
  destruct (@learn_posting_patterns sample_backend monday_tweets)
    as [pattern|e] eqn:Hrun.
  - destruct (@posting_patterns_shape sample_backend monday_tweets pattern Hrun)
      as (Hh & _ & _ & Hd & _ & Havg & _).
    exists pattern. repeat split; assumption || apply Havg.
  - vm_compute in Hrun. discriminate.
Defined.

Lemma posting_patterns_abort_witness :
  @learn_posting_patterns sample_backend
    ([stamped "2024-01-01T14:00:00Z"] ++ stamped "yesterday"
       :: [stamped "2024-01-02T10:00:00Z"])
  = Raise ValueError.
Proof.
  apply (@posting_patterns_abort sample_backend).
  - repeat constructor. eexists. vm_compute. reflexivity.
  - vm_compute. reflexivity.
Defined.

Lemma posting_patterns_mixed_offsets_witness :
  @learn_posting_patterns sample_backend
    (stamped <$> ["2024-01-01T14:00:00Z"; "2024-01-01T14:05:00"]%string)
  = Raise TypeError.
Proof.
  apply (@posting_patterns_mixed_offsets sample_backend _
           [at_14 0 0;
            {| year := 2024; month := 1; day := 1; hour := 14; minute := 5;
               second := 0; microsecond := 0; utcoffset := None |}]).
  - repeat (constructor; [vm_compute; reflexivity|]). constructor.
  - apply Exists_cons_hd. reflexivity.
  - apply Exists_cons_tl, Exists_cons_hd. reflexivity.
Defined.

Lemma engagement_patterns_shape_witness :
  exists pattern,
    @learn_engagement_patterns sample_backend sixty_interactions = Ok (Some pattern)
    /\ Zsum (eng_by_type pattern).*2 = 60
    /\ (length (eng_most_engaging_hours pattern) <= 5)%nat.
Proof.
  destruct (@learn_engagement_patterns sample_backend sixty_interactions)
    as [[pattern|]|e] eqn:Hrun.
  - destruct (@engagement_patterns_shape sample_backend sixty_interactions pattern Hrun)
      as (_ & Hsum & _ & Hlen & _).
    exists pattern. repeat split; assumption.
  - vm_compute in Hrun. discriminate.
  - vm_compute in Hrun. discriminate.
Defined.

Lemma content_topics_ranges_witness :
  Forall (fun topic => 0 <= tweet_count topic <= 3 /\ (0 <= prominence topic <= 1)%Q)
         (@learn_content_topics sample_backend ["a"; "bb"; "ccc"] 3)
  /\ length (@learn_content_topics sample_backend ["a"; "bb"; "ccc"] 3) = 3%nat.
Proof.
  split; [|reflexivity].
  apply (@content_topics_ranges sample_backend ["a"; "bb"; "ccc"] 3).
  intros fitted kmeans Hfit Hkm.
  vm_compute in Hfit. injection Hfit as <-.
  vm_compute in Hkm. injection Hkm as <-. reflexivity.
Defined.

Lemma vocabulary_common_words_witness :
  exists vocabulary,
    @learn_vocabulary sample_backend (split_words EmptyString) sample_texts
    = Some vocabulary
    /\ common_words vocabulary
       = ["people"; "new"; "plan"; "great"; "creative"; "talk"; "kind"]%string
    /\ NoDup (common_words vocabulary)
    /\ Forall (fun word => (word ∉ stop_words) /\ 2 < str_len word)
              (common_words vocabulary).
Proof.
  destruct (@learn_vocabulary sample_backend (split_words EmptyString) sample_texts)
    as [vocabulary|] eqn:Hrun.
  - destruct (@vocabulary_common_words sample_backend (split_words EmptyString)
                sample_texts vocabulary Hrun) as (_ & Hnd & Hall & _).
    exists vocabulary. split; [reflexivity|].
    split; [vm_compute in Hrun; injection Hrun as <-; reflexivity|].
    split; [exact Hnd|].
    eapply Forall_impl; [exact Hall|]. intros word (_ & Hstop & Hlong). auto.
  - vm_compute in Hrun. discriminate.
Defined.

Lemma vocabulary_counts_witness :
  exists vocabulary,
    @learn_vocabulary sample_backend (split_words EmptyString) sample_texts
    = Some vocabulary
    /\ unique_words vocabulary = 10
    /\ total_words vocabulary = 11
    /\ 0 <= unique_words vocabulary <= total_words vocabulary.
Proof.
  destruct (@learn_vocabulary sample_backend (split_words EmptyString) sample_texts)
    as [vocabulary|] eqn:Hrun.
  - destruct (@vocabulary_counts sample_backend (split_words EmptyString)
                sample_texts vocabulary Hrun) as (Hrange & _ & _).
    exists vocabulary. split; [reflexivity|].
    split; [vm_compute in Hrun; injection Hrun as <-; reflexivity|].
    split; [vm_compute in Hrun; injection Hrun as <-; reflexivity | exact Hrange].
  - vm_compute in Hrun. discriminate.
Defined.

Lemma description_missing_trait_witness :
  get_personality_description
    ({[ "openness"%string := (1 # 2)%Q; "mood"%string := 1%Q ]} : gmap string Q) = None.
Proof.
  apply (proj2 (description_missing_trait _)).
  intros Hall. specialize (Hall "neuroticism"%string).
  assert (Hin : "neuroticism"%string ∈ TRAITS) by (unfold TRAITS; set_solver).
  apply Hall in Hin. rewrite dom_insert_L, dom_singleton_L in Hin.
  apply elem_of_union in Hin as [Hin | Hin];
    apply elem_of_singleton in Hin; discriminate.
Defined.

Lemma analyze_then_describe_witness :
  exists scores description,
    @analyze_texts sample_backend exact_arith sample_texts = Ok scores
    /\ get_personality_description scores = Some description
    /\ description <> EmptyString.
Proof.
  assert (Hrun : exists scores, @analyze_texts sample_backend exact_arith sample_texts = Ok scores)
    by (eexists; vm_compute; reflexivity).
  destruct Hrun as [scores Hrun].
  destruct (@analyze_then_describe sample_backend sample_texts scores Hrun)
    as (description & Hd & Hne).
  exists scores, description. repeat split; assumption.
Defined.

Lemma description_fallback_witness :
  get_personality_description
    ({[ "openness"%string := (6 # 10)%Q;
        "conscientiousness"%string := (1 # 2)%Q;
        "extraversion"%string := (1 # 2)%Q;
        "agreeableness"%string := (1 # 2)%Q;
        "neuroticism"%string := (4 # 10)%Q ]} : gmap string Q)
  = Some "balanced and adaptable"%string.
Proof.
  set (scores := ({[ "openness"%string := (6 # 10)%Q;
                     "conscientiousness"%string := (1 # 2)%Q;
                     "extraversion"%string := (1 # 2)%Q;
                     "agreeableness"%string := (1 # 2)%Q;
                     "neuroticism"%string := (4 # 10)%Q ]} : gmap string Q)).
  assert (Ho : scores !! "openness"%string = Some (6 # 10)%Q) by (vm_compute; reflexivity).
  assert (Hc : scores !! "conscientiousness"%string = Some (1 # 2)%Q)
    by (vm_compute; reflexivity).
  assert (He : scores !! "extraversion"%string = Some (1 # 2)%Q)
    by (vm_compute; reflexivity).
  assert (Ha : scores !! "agreeableness"%string = Some (1 # 2)%Q)
    by (vm_compute; reflexivity).
  assert (Hn : scores !! "neuroticism"%string = Some (4 # 10)%Q)
    by (vm_compute; reflexivity).
  apply (proj2 (description_fallback _ _ _ _ _ scores Ho Hc He Ha Hn)).
  repeat split; vm_compute; discriminate.
Defined.

Lemma analyze_texts_abort_witness :
  @analyze_texts sample_backend exact_arith (["the new plan is great"] ++ "" :: ["creative people"])
  = Raise ValueError.
Proof.
  apply (@analyze_texts_abort sample_backend).
  - repeat constructor. eexists. vm_compute. reflexivity.
  - reflexivity.
Defined.

Lemma find_similar_indices_valid_witness :
  NoDup (@find_similar sample_backend "a cat" ["dog"; "cat"; "bird"; "the cat"] 3).*1
  /\ len (@find_similar sample_backend "a cat" ["dog"; "cat"; "bird"; "the cat"] 3) <= 3.
Proof.
  destruct (@find_similar_indices_valid sample_backend "a cat"
              ["dog"; "cat"; "bird"; "the cat"] 3) as (Hnd & Hlen & _).
  split; [exact Hnd | apply Hlen; lia].
Defined.

(** ** The most common keys are the most frequent ones *)

Section MostCommonFacts.
Context {K : Type} `{EqDecision K}.

Lemma counter_get_entry (c : list (K * Z)) (k : K) (n : Z) :
  NoDup c.*1 -> (k, n) ∈ c -> counter_get c k = n.
Proof.
  induction c as [|[k0 n0] c IH]; intros Hnd Hin; [inversion Hin|].
  rewrite fmap_cons in Hnd. apply NoDup_cons in Hnd as [Hfresh Hnd].
  simpl. apply elem_of_cons in Hin as [Heq | Hin].
  - injection Heq as -> ->. rewrite decide_True by reflexivity. reflexivity.
  - destruct (decide (k = k0)) as [->|Hne]; [|apply IH; assumption].
    exfalso. apply Hfresh. apply list_elem_of_fmap. exists (k0, n). auto.
Qed.

Lemma Counter_entry (l : list K) (k : K) (n : Z) :
  (k, n) ∈ Counter l -> n = len (filter (fun x => x = k) l) /\ 0 < n.
Proof.
  intros Hin.
  pose proof (counter_get_entry _ _ _ (Counter_NoDup l) Hin) as Hget.
  unfold Counter in Hget. rewrite counter_get_update in Hget. simpl in Hget.
  split; [lia|].
  assert (Hk : k ∈ l).
  { apply Counter_elem. apply list_elem_of_fmap. exists (k, n). auto. }
  assert (Hf : k ∈ filter (fun x => x = k) l) by (apply list_elem_of_filter; auto).
  unfold len in Hget. destruct (filter (fun x => x = k) l); [inversion Hf|].
  simpl in Hget. lia.
Qed.

Lemma StronglySorted_take_drop {A : Type} (R : A -> A -> Prop) (l : list A) :
  StronglySorted R l ->
  forall n x y, x ∈ take n l -> y ∈ drop n l -> R x y.
Proof.
  induction 1 as [|a l Hl IH Ha]; intros n x y Hx Hy.
  - rewrite take_nil in Hx. inversion Hx.
  - destruct n as [|n]; [inversion Hx|]. simpl in Hx, Hy.
    apply elem_of_cons in Hx as [-> | Hx].
    + rewrite Forall_forall in Ha. apply Ha.
      eapply elem_of_sublist; [exact Hy | apply sublist_drop].
    + apply (IH n); assumption.
Qed.

Lemma StronglySorted_take {A : Type} (R : A -> A -> Prop) (l : list A) (n : nat) :
  StronglySorted R l -> StronglySorted R (take n l).
Proof.
  intros Hsorted. revert n.
  induction Hsorted as [|a l Hl IH Ha]; intros [|n]; simpl; try constructor.
  - apply IH.
  - apply Forall_take, Ha.
Qed.

Lemma StronglySorted_fmap {A B : Type} (f : A -> B) (R : B -> B -> Prop) (l : list A) :
  StronglySorted (fun a b => R (f a) (f b)) l -> StronglySorted R (f <$> l).
Proof.
  induction 1 as [|a l Hl IH Ha]; csimpl; constructor; [exact IH|].
  rewrite Forall_fmap. exact Ha.
Qed.

(** The keys of [most_common n (Counter l)]: each occurs in [l], they are
    in descending order of their number of occurrences, and no key left
    out occurs more often than a key listed. *)
Lemma most_common_ranked (n : nat) (l : list K) :
  Forall (fun k => 0 < len (filter (fun x => x = k) l)) (most_common n (Counter l)).*1
  /\ StronglySorted (fun a b => len (filter (fun x => x = b) l)
                                <= len (filter (fun x => x = a) l))
                    (most_common n (Counter l)).*1
  /\ forall k k',
       k ∈ (most_common n (Counter l)).*1 ->
       k' ∉ (most_common n (Counter l)).*1 ->
       len (filter (fun x => x = k') l) <= len (filter (fun x => x = k) l).
Proof.
  unfold most_common.
  set (key := fun kv : K * Z => inject_Z kv.2).
  set (count := fun k => len (filter (fun x => x = k) l)).
  pose proof (sorted_reverse_perm key (Counter l)) as Hperm.
  assert (Hentry : forall kv, kv ∈ sorted_reverse key (Counter l) ->
                              kv.2 = count kv.1 /\ 0 < kv.2).
  { intros [k m] Hin. rewrite Hperm in Hin. apply (Counter_entry l k m Hin). }
  assert (Hsorted : StronglySorted (fun a b : K * Z => count b.1 <= count a.1)
                                   (sorted_reverse key (Counter l))).
  { assert (Hs : StronglySorted (fun a b : K * Z => b.2 <= a.2)
                                (sorted_reverse key (Counter l))).
    { eapply StronglySorted_weaken;
        [|apply (sorted_reverse_sorted key (fun _ _ => True)), StronglySorted_trivial].
      intros a b Hab. apply precedes_key in Hab. unfold key in Hab.
      rewrite <- Zle_Qle in Hab. exact Hab. }
    revert Hentry Hs. generalize (sorted_reverse key (Counter l)).
    intros ranking Hentry Hs.
    induction Hs as [|a ranking Hr IH Ha]; constructor.
    - apply IH. intros kv Hkv. apply Hentry, list_elem_of_further, Hkv.
    - rewrite Forall_forall in Ha |- *. intros b Hb.
      destruct (Hentry a (list_elem_of_here _ _)) as [<- _].
      destruct (Hentry b (list_elem_of_further _ _ _ Hb)) as [<- _].
      apply Ha, Hb. }
  split; [|split].
  - rewrite Forall_fmap, Forall_forall. intros kv Hkv.
    assert (Hin : kv ∈ sorted_reverse key (Counter l)).
    { eapply elem_of_sublist; [exact Hkv | apply sublist_take]. }
    destruct (Hentry kv Hin) as [Heq Hpos]. simpl. fold (count kv.1). lia.
  - apply StronglySorted_fmap, StronglySorted_take. exact Hsorted.
  - intros k k' Hk Hk'. fold (count k) (count k').
    apply list_elem_of_fmap in Hk as (kv & -> & Hkv).
    assert (Hnonneg : 0 <= count kv.1).
    { unfold count, len. lia. }
    destruct (decide (k' ∈ l)) as [Hin | Hout].
    + assert (Hkey : k' ∈ (Counter l).*1) by (apply Counter_elem, Hin).
      apply list_elem_of_fmap in Hkey as (kv' & -> & Hkv').
      rewrite <- Hperm in Hkv'.
      rewrite <- (take_drop n (sorted_reverse key (Counter l))) in Hkv'.
      apply elem_of_app in Hkv' as [Htake | Hdrop].
      * exfalso. apply Hk'. apply list_elem_of_fmap. exists kv'. auto.
      * apply (StronglySorted_take_drop _ _ Hsorted n kv kv' Hkv Hdrop).
    + assert (Hzero : count k' = 0).
      { unfold count, len.
        destruct (filter (fun x => x = k') l) as [|x rest] eqn:Hf; [reflexivity|].
        exfalso. apply Hout.
        assert (Hx : x ∈ filter (fun x => x = k') l) by (rewrite Hf; apply list_elem_of_here).
        apply list_elem_of_filter in Hx as [-> Hx]. exact Hx. }
      lia.
Qed.

End MostCommonFacts.

Section BestHours.
Context `{Backend}.

(** X20: when every tweet carries a readable timestamp, the best hours
    of [learn_posting_patterns] are hours at which a tweet was posted,
    listed from the most to the less frequent, and no hour left out has
    more tweets than a listed one; the same holds of the best days. *)
Theorem posting_patterns_most_frequent (tweets : list (gmap string pyval))
  (stamps : list datetime) (pattern : PostingPattern) :
  Forall2 posted_at tweets stamps ->
  learn_posting_patterns tweets = Ok pattern ->
  (Forall (fun h => 0 < len (filter (fun x => x = h) (hour <$> stamps)))
          (best_hours pattern)
   /\ StronglySorted (fun a b => len (filter (fun x => x = b) (hour <$> stamps))
                                 <= len (filter (fun x => x = a) (hour <$> stamps)))
                     (best_hours pattern)
   /\ forall h h',
        h ∈ best_hours pattern -> h' ∉ best_hours pattern ->
        len (filter (fun x => x = h') (hour <$> stamps))
        <= len (filter (fun x => x = h) (hour <$> stamps)))
  /\ (Forall (fun d => 0 < len (filter (fun x => x = d) (strftime_A <$> stamps)))
             (best_days pattern)
      /\ StronglySorted
           (fun a b => len (filter (fun x => x = b) (strftime_A <$> stamps))
                       <= len (filter (fun x => x = a) (strftime_A <$> stamps)))
           (best_days pattern)
      /\ forall d d',
           d ∈ best_days pattern -> d' ∉ best_days pattern ->
           len (filter (fun x => x = d') (strftime_A <$> stamps))
           <= len (filter (fun x => x = d) (strftime_A <$> stamps))).
Proof.
  intros Hposted Hrun. destruct tweets as [|tweet tweets].
  - injection Hrun as <-. simpl.
    split; (split; [constructor|]; split; [constructor|]);
      intros a b Ha; inversion Ha.
  - unfold learn_posting_patterns in Hrun.
    rewrite (fold_result_ok _
               (fun (acc : list Z * list string) d =>
                  (acc.1 ++ [hour d], acc.2 ++ [strftime_A d]))
               (tweet :: tweets) stamps) in Hrun.
    2: { eapply Forall2_impl; [exact Hposted|].
         intros tw d Hp [hours days]. unfold posted_at in Hp. rewrite Hp. reflexivity. }
    rewrite foldl_snoc_pair in Hrun. cbv beta iota delta [bind] in Hrun.
    cbn [fst snd app] in Hrun.
    destruct (_calculate_date_range (tweet :: tweets)) as [date_range|e];
      [|discriminate].
    injection Hrun as <-. cbn [best_hours best_days].
    split; apply most_common_ranked.
Qed.

End BestHours.

Lemma posting_patterns_most_frequent_witness :
  exists pattern,
    Forall2 (@posted_at sample_backend) monday_tweets monday_stamps
    /\ @learn_posting_patterns sample_backend monday_tweets = Ok pattern
    /\ Forall (fun h => 0 < len (filter (fun x => x = h) (hour <$> monday_stamps)))
              (best_hours pattern).
Proof.
  assert (Hposted : Forall2 (@posted_at sample_backend) monday_tweets monday_stamps).
  { unfold monday_tweets, monday_stamps.
    repeat (constructor; [vm_compute; reflexivity|]). constructor. }
  destruct (@learn_posting_patterns sample_backend monday_tweets)
    as [pattern|e] eqn:Hrun.
  - destruct (@posting_patterns_most_frequent sample_backend monday_tweets
                monday_stamps pattern Hposted Hrun) as [(Hpos & _ & _) _].
    exists pattern. repeat split; assumption.
  - vm_compute in Hrun. discriminate.
Defined.

(** ** The date range in general *)

Lemma datetime_sub_same_kind (a b : datetime) :
  aware a = aware b -> datetime_sub a b = Ok (instant a - instant b).
Proof.
  unfold aware, datetime_sub, instant.
  destruct (utcoffset a), (utcoffset b); intros Hkind; try discriminate; simpl;
    f_equal; lia.
Qed.

Lemma datetime_max_spec (rest : list datetime) :
  forall first,
    Forall (fun d => aware d = aware first) rest ->
    exists latest,
      datetime_max first rest = Ok latest
      /\ latest ∈ first :: rest
      /\ aware latest = aware first
      /\ Forall (fun d => instant d <= instant latest) (first :: rest).
Proof.
  induction rest as [|d rest IH]; intros first Hkind; simpl.
  - exists first. repeat split; [apply list_elem_of_here | repeat constructor; lia].
  - apply Forall_cons in Hkind as [Hd Hrest].
    unfold datetime_lt. rewrite datetime_sub_same_kind by congruence. simpl.
    destruct (Z.ltb_spec (instant first - instant d) 0) as [Hlt | Hge].
    + destruct (IH d) as (latest & Hrun & Hin & Haware & Hall).
      { eapply Forall_impl; [exact Hrest|]. intros x Hx. congruence. }
      exists latest. split; [exact Hrun|].
      split; [apply list_elem_of_further, Hin|]. split; [congruence|].
      pose proof Hall as Hall'. apply Forall_cons in Hall' as [Hdl _].
      constructor; [lia | exact Hall].
    + destruct (IH first Hrest) as (latest & Hrun & Hin & Haware & Hall).
      exists latest. split; [exact Hrun|]. split.
      * apply elem_of_cons in Hin as [-> | Hin];
          [apply list_elem_of_here | do 2 apply list_elem_of_further; exact Hin].
      * split; [exact Haware|].
        apply Forall_cons in Hall as [Hfl Hrl].
        constructor; [exact Hfl|]. constructor; [lia | exact Hrl].
Qed.

Lemma datetime_min_spec (rest : list datetime) :
  forall first,
    Forall (fun d => aware d = aware first) rest ->
    exists earliest,
      datetime_min first rest = Ok earliest
      /\ earliest ∈ first :: rest
      /\ aware earliest = aware first
      /\ Forall (fun d => instant earliest <= instant d) (first :: rest).
Proof.
  induction rest as [|d rest IH]; intros first Hkind; simpl.
  - exists first. repeat split; [apply list_elem_of_here | repeat constructor; lia].
  - apply Forall_cons in Hkind as [Hd Hrest].
    unfold datetime_lt. rewrite datetime_sub_same_kind by congruence. simpl.
    destruct (Z.ltb_spec (instant d - instant first) 0) as [Hlt | Hge].
    + destruct (IH d) as (earliest & Hrun & Hin & Haware & Hall).
      { eapply Forall_impl; [exact Hrest|]. intros x Hx. congruence. }
      exists earliest. split; [exact Hrun|].
      split; [apply list_elem_of_further, Hin|]. split; [congruence|].
      pose proof Hall as Hall'. apply Forall_cons in Hall' as [Hdl _].
      constructor; [lia | exact Hall].
    + destruct (IH first Hrest) as (earliest & Hrun & Hin & Haware & Hall).
      exists earliest. split; [exact Hrun|]. split.
      * apply elem_of_cons in Hin as [-> | Hin];
          [apply list_elem_of_here | do 2 apply list_elem_of_further; exact Hin].
      * split; [exact Haware|].
        apply Forall_cons in Hall as [Hfl Hrl].
        constructor; [exact Hfl|]. constructor; [lia | exact Hrl].
Qed.

Section DateRange.
Context `{Backend}.

(** X21: for tweets whose timestamps are all given with an offset, or all
    without, [_calculate_date_range] is the number of whole days between
    the earliest and the latest moment, and 1 when that is less. *)
Theorem date_range_whole_days (tweets : list (gmap string pyval))
  (stamps : list datetime) :
  Forall2 posted_at tweets stamps ->
  stamps <> [] ->
  (forall a b, a ∈ stamps -> b ∈ stamps -> aware a = aware b) ->
  exists earliest latest,
    earliest ∈ stamps /\ latest ∈ stamps
    /\ Forall (fun d => instant earliest <= instant d <= instant latest) stamps
    /\ _calculate_date_range tweets
       = Ok (Z.max ((instant latest - instant earliest) / MICROS_PER_DAY) 1).
Proof.
  intros Hposted Hne Hkind. unfold _calculate_date_range.
  rewrite (fold_result_ok _ (fun dates d => dates ++ [id d]) tweets stamps).
  2: { eapply Forall2_impl; [exact Hposted|].
       intros tweet d Hp acc. unfold posted_at in Hp. rewrite Hp. reflexivity. }
  rewrite (foldl_snoc id), list_fmap_id. cbn [bind app].
  destruct stamps as [|first rest]; [congruence|].
  assert (Hrest : Forall (fun d => aware d = aware first) rest).
  { rewrite Forall_forall. intros d Hd.
    apply Hkind; [apply list_elem_of_further, Hd | apply list_elem_of_here]. }
  destruct (datetime_max_spec rest first Hrest) as (latest & Hmax & Hlin & Hla & Hlall).
  destruct (datetime_min_spec rest first Hrest) as (earliest & Hmin & Hein & Hea & Heall).
  exists earliest, latest. split; [exact Hein|]. split; [exact Hlin|]. split.
  { rewrite Forall_forall in Hlall, Heall |- *. intros d Hd.
    specialize (Hlall d Hd). specialize (Heall d Hd). lia. }
  destruct rest as [|second rest].
  - simpl in Hmax, Hmin. injection Hmax as <-. injection Hmin as <-.
    rewrite Z.sub_diag. reflexivity.
  - rewrite Hmax, Hmin. cbn [bind].
    rewrite datetime_sub_same_kind by congruence. reflexivity.
Qed.

End DateRange.

Lemma date_range_whole_days_witness :
  exists earliest latest,
    (instant latest - instant earliest) / MICROS_PER_DAY = 3
    /\ @_calculate_date_range sample_backend
         (stamped <$> ["2024-01-03T10:00:00Z"; "2024-01-01T12:00:00Z";
                       "2024-01-05T11:59:59Z"]%string)
       = Ok (Z.max ((instant latest - instant earliest) / MICROS_PER_DAY) 1).
Proof.
  set (stamps :=
         [ {| year := 2024; month := 1; day := 3; hour := 10; minute := 0;
              second := 0; microsecond := 0; utcoffset := Some 0 |};
           {| year := 2024; month := 1; day := 1; hour := 12; minute := 0;
              second := 0; microsecond := 0; utcoffset := Some 0 |};
           {| year := 2024; month := 1; day := 5; hour := 11; minute := 59;
              second := 59; microsecond := 0; utcoffset := Some 0 |} ]).
  assert (Haware : Forall (fun d => aware d = true) stamps) by (repeat constructor).
  rewrite Forall_forall in Haware.
  destruct (@date_range_whole_days sample_backend
              (stamped <$> ["2024-01-03T10:00:00Z"; "2024-01-01T12:00:00Z";
                            "2024-01-05T11:59:59Z"]%string) stamps)
    as (earliest & latest & _ & _ & _ & Hrun).
  - repeat (constructor; [vm_compute; reflexivity|]). constructor.
  - discriminate.
  - intros a b Ha Hb. rewrite (Haware a Ha), (Haware b Hb). reflexivity.
  - exists earliest, latest. split; [|exact Hrun].
    assert (Hvalue : @_calculate_date_range sample_backend
                       (stamped <$> ["2024-01-03T10:00:00Z"; "2024-01-01T12:00:00Z";
                                     "2024-01-05T11:59:59Z"]%string) = Ok 3)
      by (vm_compute; reflexivity).
    rewrite Hvalue in Hrun. injection Hrun as Hmax.
    pose proof (Z.le_max_r ((instant latest - instant earliest) / MICROS_PER_DAY) 1).
    lia.
Defined.
